(** * sharpTransformer: the option-to-operation pipeline of [src/sharpTransformer.ts]

    [transform] turns resolved transform options into a sequence of method
    calls on a [sharp] image object and awaits [toBuffer] on it.  The image
    engine (decoding, pixel work, encoding) is an external collaborator and a
    parameter here.

    The engine decides three things: whether the constructor throws, whether
    a method call on an image throws, and how [toBuffer] settles.  A call that
    throws ends [transform] there: the calls after it are never made,
    [toBuffer] is never awaited, and the promise is rejected with the error
    thrown.  The image object records the input bytes, the constructor
    options and the calls made on it, in call order, the throwing one
    included. *)

From Stdlib Require Import ZArith Floats.SpecFloat Strings.Byte.
From stdpp Require Import base decidable countable list sorting strings gmap.

(** * JavaScript values *)

Module JS.

(** A JS [number] is an IEEE 754 binary64 value. *)
Definition number : Type := spec_float.

Definition prec : Z := 53.
Definition emax : Z := 1024.

(** Integer literals of the source. *)
Definition of_Z (z : Z) : number := binary_normalize prec emax z 0 false.

Definition NaN : number := S754_nan.

(** [ToBoolean] on a number: [+0], [-0] and [NaN] are falsy, all else truthy. *)
Definition ToBoolean (x : number) : bool :=
  match x with
  | S754_zero _ | S754_nan => false
  | S754_infinity _ | S754_finite _ _ _ => true
  end.

(** [x == y], [x != y], [x > y] and [x < y] on two numbers. *)
Definition eq (x y : number) : bool := SFeqb x y.
Definition ne (x y : number) : bool := negb (eq x y).
Definition gt (x y : number) : bool := SFltb y x.
Definition lt (x y : number) : bool := SFltb x y.
Definition le (x y : number) : bool := SFleb x y.

(** [x != null] on a nullable value. *)
Definition not_null {A : Type} (x : option A) : bool :=
  match x with
  | Some _ => true
  | None => false
  end.

(** An [Error] object, as thrown by the engine. *)
Record Error : Type := { message : string }.

(** A settled promise. *)
Inductive Promise (A : Type) : Type :=
| Fulfilled (value : A)
| Rejected (reason : Error).
Arguments Fulfilled {A} value.
Arguments Rejected {A} reason.

(** [new Uint8Array(buffer)] copies the bytes of the buffer. *)
Definition Uint8Array (buffer : list byte) : list byte := buffer.

End JS.

(** * Option model *)

Inductive MimeType : Type :=
| SVG | JPEG | PNG | GIF | WEBP | BMP | TIFF | AVIF.

(** The string value of each enum member. *)
Definition MimeType_value (m : MimeType) : string :=
  match m with
  | SVG => "image/svg+xml"
  | JPEG => "image/jpeg"
  | PNG => "image/png"
  | GIF => "image/gif"
  | WEBP => "image/webp"
  | BMP => "image/bmp"
  | TIFF => "image/tiff"
  | AVIF => "image/avif"
  end.

Definition MimeType_of_value (s : string) : option MimeType :=
  list_find (λ m, MimeType_value m = s) [SVG; JPEG; PNG; GIF; WEBP; BMP; TIFF; AVIF]
  ≫= λ p, Some p.2.

#[global] Instance MimeType_eq_dec : EqDecision MimeType.
Proof. solve_decision. Defined.

#[global] Instance MimeType_countable : Countable MimeType :=
  inj_countable MimeType_value MimeType_of_value
    (λ m, match m with
          | SVG | JPEG | PNG | GIF | WEBP | BMP | TIFF | AVIF => eq_refl
          end).

(** [a === b] on two members of the enum compares their string values. *)
Definition MimeType_strict_eq (a b : MimeType) : bool :=
  bool_decide (MimeType_value a = MimeType_value b).

Inductive ImageFit : Type :=
| contain | cover | fill | inside | outside.

(** [ImagePosition | string | number]: the named anchors are strings. *)
Inductive ImagePosition : Type :=
| PositionString (s : string)
| PositionNumber (n : JS.number).

Inductive FlipDirection : Type :=
| horizontal | vertical | both.

#[global] Instance FlipDirection_eq_dec : EqDecision FlipDirection.
Proof. solve_decision. Defined.

Definition FlipDirection_strict_eq (a b : FlipDirection) : bool :=
  bool_decide (a = b).

(** [Color = [number, number, number, number]], indexed 0 to 3. *)
Module Color.
Record t : Type := { at0 : JS.number; at1 : JS.number; at2 : JS.number; at3 : JS.number }.
End Color.

Module CropOptions.
Record t : Type := { x : JS.number; y : JS.number; width : JS.number; height : JS.number }.
End CropOptions.

(** [Required<TransformOptions>]: every field is there, the nullable ones may
    still hold [null]. *)
Module TransformOptions.
Record t : Type := {
  width : option JS.number;
  height : option JS.number;
  contentType : MimeType;
  fit : ImageFit;
  position : ImagePosition;
  background : Color.t;
  quality : JS.number;
  compressionLevel : JS.number;
  loop : JS.number;
  delay : JS.number;
  blurRadius : option JS.number;
  rotate : option JS.number;
  flip : option FlipDirection;
  crop : option CropOptions.t;
}.

(** Functional updates of single options. *)
Definition with_contentType (m : MimeType) (o : t) : t :=
  {| width := width o;
     height := height o;
     contentType := m;
     fit := fit o;
     position := position o;
     background := background o;
     quality := quality o;
     compressionLevel := compressionLevel o;
     loop := loop o;
     delay := delay o;
     blurRadius := blurRadius o;
     rotate := rotate o;
     flip := flip o;
     crop := crop o |}.

Definition with_blurRadius (b : option JS.number) (o : t) : t :=
  {| width := width o;
     height := height o;
     contentType := contentType o;
     fit := fit o;
     position := position o;
     background := background o;
     quality := quality o;
     compressionLevel := compressionLevel o;
     loop := loop o;
     delay := delay o;
     blurRadius := b;
     rotate := rotate o;
     flip := flip o;
     crop := crop o |}.

Definition with_rotate (a : option JS.number) (o : t) : t :=
  {| width := width o;
     height := height o;
     contentType := contentType o;
     fit := fit o;
     position := position o;
     background := background o;
     quality := quality o;
     compressionLevel := compressionLevel o;
     loop := loop o;
     delay := delay o;
     blurRadius := blurRadius o;
     rotate := a;
     flip := flip o;
     crop := crop o |}.

Definition with_flip (f : option FlipDirection) (o : t) : t :=
  {| width := width o;
     height := height o;
     contentType := contentType o;
     fit := fit o;
     position := position o;
     background := background o;
     quality := quality o;
     compressionLevel := compressionLevel o;
     loop := loop o;
     delay := delay o;
     blurRadius := blurRadius o;
     rotate := rotate o;
     flip := f;
     crop := crop o |}.

End TransformOptions.

Module Input.
Record t : Type := {
  url : string;
  data : list byte;
  contentType : MimeType;
}.
End Input.

(** * The engine's image object *)

Module Sharp.

Record RGBA : Type := { r : JS.number; g : JS.number; b : JS.number; alpha : JS.number }.

Record Region : Type := {
  left : JS.number; top : JS.number; width : JS.number; height : JS.number }.

Record ResizeOptions : Type := {
  fit : ImageFit; position : ImagePosition; background : RGBA }.

Record SharpOptions : Type := { animated : bool }.

(** A method call on the image, with its arguments. *)
Inductive Call : Type :=
| EnsureAlpha (alpha : JS.number)
| Extract (region : Region)
| Resize (width height : option JS.number) (options : ResizeOptions)
| Flop
| Flip
| Rotate (angle : JS.number) (background : RGBA)
| Blur (sigma : JS.number)
| Jpeg (quality : JS.number) (progressive force : bool)
| Png (progressive : bool) (compressionLevel : JS.number) (force : bool)
| Gif (loop delay : JS.number) (force : bool)
| Webp (quality : JS.number) (force : bool)
| Tiff (quality : JS.number) (force : bool)
| Avif (quality : JS.number) (force : bool).

(** The image object: the arguments of the constructor and the calls made on
    it so far, oldest first. *)
Record t : Type := {
  input : list byte;
  options : SharpOptions;
  calls : list Call;
}.

(** The engine: the error the constructor throws for its arguments, if any;
    the error a method call throws on an image, if any; and what awaiting
    [toBuffer] on a configured image settles to. *)
Record Engine : Type := {
  sharp_throws : list byte → SharpOptions → option JS.Error;
  call_throws : t → Call → option JS.Error;
  toBuffer : t → JS.Promise (list byte);
}.

(** How a chain of calls stands: every call so far returned the image, or one
    threw.  In both cases the image holds the calls made, the throwing one
    included (for a throwing constructor: its arguments and no call). *)
Inductive Chain : Type :=
| Returned (image : t)
| Threw (image : t) (reason : JS.Error).

Definition image_of (chain : Chain) : t :=
  match chain with
  | Returned image | Threw image _ => image
  end.

(** The next call of a chain is made only if no call threw before. *)
Definition andThen (chain : Chain) (method : t → Chain) : Chain :=
  match chain with
  | Returned image => method image
  | Threw image reason => Threw image reason
  end.

Definition sharp (engine : Engine) (data : list byte) (opts : SharpOptions) : Chain :=
  let image := {| input := data; options := opts; calls := [] |} in
  match sharp_throws engine data opts with
  | Some reason => Threw image reason
  | None => Returned image
  end.

Definition call (engine : Engine) (c : Call) (image : t) : Chain :=
  let called :=
    {| input := input image; options := options image; calls := calls image ++ [c] |} in
  match call_throws engine image c with
  | Some reason => Threw called reason
  | None => Returned called
  end.

Definition ensureAlpha (engine : Engine) (alpha : JS.number) : t → Chain :=
  call engine (EnsureAlpha alpha).
Definition extract (engine : Engine) (region : Region) : t → Chain :=
  call engine (Extract region).
Definition resize (engine : Engine) (width height : option JS.number)
  (opts : ResizeOptions) : t → Chain :=
  call engine (Resize width height opts).
Definition flop (engine : Engine) : t → Chain := call engine Flop.
Definition flip (engine : Engine) : t → Chain := call engine Flip.
Definition rotate (engine : Engine) (angle : JS.number) (background : RGBA) : t → Chain :=
  call engine (Rotate angle background).
Definition blur (engine : Engine) (sigma : JS.number) : t → Chain :=
  call engine (Blur sigma).
Definition jpeg (engine : Engine) (quality : JS.number) (progressive force : bool)
  : t → Chain :=
  call engine (Jpeg quality progressive force).
Definition png (engine : Engine) (progressive : bool) (compressionLevel : JS.number)
  (force : bool) : t → Chain :=
  call engine (Png progressive compressionLevel force).
Definition gif (engine : Engine) (loop delay : JS.number) (force : bool) : t → Chain :=
  call engine (Gif loop delay force).
Definition webp (engine : Engine) (quality : JS.number) (force : bool) : t → Chain :=
  call engine (Webp quality force).
Definition tiff (engine : Engine) (quality : JS.number) (force : bool) : t → Chain :=
  call engine (Tiff quality force).
Definition avif (engine : Engine) (quality : JS.number) (force : bool) : t → Chain :=
  call engine (Avif quality force).

End Sharp.

Notation "image '|>' method" := (Sharp.andThen image method)
  (at level 45, left associativity, only parsing).

(** * Capability descriptor *)

Definition supportedInputs : gset MimeType :=
  list_to_set [JPEG; PNG; GIF; WEBP; TIFF; AVIF].

Definition supportedOutputs : gset MimeType :=
  list_to_set [JPEG; PNG; GIF; WEBP; TIFF; AVIF].

(** * The transform *)

(** The calls of [transform] on the image, up to the call of [toBuffer]. *)
Definition pipeline (engine : Sharp.Engine)
  (input : Input.t) (output : TransformOptions.t) : Sharp.Chain :=
  let data := Input.data input in
  let outputContentType := TransformOptions.contentType output in
  let width := TransformOptions.width output in
  let height := TransformOptions.height output in
  let fit := TransformOptions.fit output in
  let position := TransformOptions.position output in
  let background := TransformOptions.background output in
  let quality := TransformOptions.quality output in
  let compressionLevel := TransformOptions.compressionLevel output in
  let loop := TransformOptions.loop output in
  let delay := TransformOptions.delay output in
  let blurRadius := TransformOptions.blurRadius output in
  let rotate := TransformOptions.rotate output in
  let flip := TransformOptions.flip output in
  let crop := TransformOptions.crop output in
  let fixedBackground :=
    {| Sharp.r := Color.at0 background;
       Sharp.g := Color.at1 background;
       Sharp.b := Color.at2 background;
       Sharp.alpha := Color.at3 background |} in
  let image := Sharp.sharp engine data {| Sharp.animated := true |} in
  let image := image |> Sharp.ensureAlpha engine (JS.of_Z 1) in
  let image :=
    match crop with
    | Some crop =>
        image |> Sharp.extract engine
          {| Sharp.left := CropOptions.x crop;
             Sharp.top := CropOptions.y crop;
             Sharp.width := CropOptions.width crop;
             Sharp.height := CropOptions.height crop |}
    | None => image
    end in
  let image :=
    if JS.not_null width || JS.not_null height then
      image |> Sharp.resize engine width height
        {| Sharp.fit := fit;
           Sharp.position := position;
           Sharp.background := fixedBackground |}
    else image in
  let image :=
    match flip with
    | Some flip =>
        let image :=
          if FlipDirection_strict_eq flip horizontal || FlipDirection_strict_eq flip both
          then image |> Sharp.flop engine else image in
        let image :=
          if FlipDirection_strict_eq flip vertical || FlipDirection_strict_eq flip both
          then image |> Sharp.flip engine else image in
        image
    | None => image
    end in
  let image :=
    match rotate with
    | Some rotate =>
        if JS.ToBoolean rotate && JS.ne rotate (JS.of_Z 0)
        then image |> Sharp.rotate engine rotate fixedBackground
        else image
    | None => image
    end in
  let image :=
    match blurRadius with
    | Some blurRadius =>
        if JS.ToBoolean blurRadius && JS.gt blurRadius (JS.of_Z 0)
        then image |> Sharp.blur engine blurRadius
        else image
    | None => image
    end in
  image
    |> Sharp.jpeg engine quality true (MimeType_strict_eq outputContentType JPEG)
    |> Sharp.png engine true compressionLevel (MimeType_strict_eq outputContentType PNG)
    |> Sharp.gif engine loop delay (MimeType_strict_eq outputContentType GIF)
    |> Sharp.webp engine quality (MimeType_strict_eq outputContentType WEBP)
    |> Sharp.tiff engine quality (MimeType_strict_eq outputContentType TIFF)
    |> Sharp.avif engine quality (MimeType_strict_eq outputContentType AVIF).

(** [transform]: a call that throws rejects the promise; otherwise [toBuffer]
    is awaited on the configured image and its bytes are handed on. *)
Definition transform (engine : Sharp.Engine)
  (input : Input.t) (output : TransformOptions.t) : JS.Promise (list byte) :=
  match pipeline engine input output with
  | Sharp.Returned image =>
      match Sharp.toBuffer engine image with
      | JS.Fulfilled result => JS.Fulfilled (JS.Uint8Array result)
      | JS.Rejected reason => JS.Rejected reason
      end
  | Sharp.Threw _ reason => JS.Rejected reason
  end.

Module Transformer.
Record t : Type := {
  name : string;
  supportedInputs : gset MimeType;
  supportedOutputs : gset MimeType;
  fallbackOutput : MimeType;
  transform : Sharp.Engine → Input.t → TransformOptions.t → JS.Promise (list byte);
}.
End Transformer.

Definition sharpTransformer : Transformer.t :=
  {| Transformer.name := "sharpTransformer";
     Transformer.supportedInputs := supportedInputs;
     Transformer.supportedOutputs := supportedOutputs;
     Transformer.fallbackOutput := PNG;
     Transformer.transform := transform |}.

(** * Observing a run *)

(** The calls [transform] makes on the image, the throwing one included. *)
Definition transform_calls (engine : Sharp.Engine)
  (input : Input.t) (output : TransformOptions.t) : list Sharp.Call :=
  Sharp.calls (Sharp.image_of (pipeline engine input output)).

(** The output format an encoder call configures, with its [force] flag. *)
Definition encoder (c : Sharp.Call) : option (MimeType * bool) :=
  match c with
  | Sharp.Jpeg _ _ force => Some (JPEG, force)
  | Sharp.Png _ _ force => Some (PNG, force)
  | Sharp.Gif _ _ force => Some (GIF, force)
  | Sharp.Webp _ force => Some (WEBP, force)
  | Sharp.Tiff _ force => Some (TIFF, force)
  | Sharp.Avif _ force => Some (AVIF, force)
  | _ => None
  end.

Definition encoders (calls : list Sharp.Call) : list (MimeType * bool) :=
  omap encoder calls.

(** The arguments of the [rotate] calls, of the [blur] calls, and the
    mirroring calls, each in call order. *)
Definition rotations (calls : list Sharp.Call) : list (JS.number * Sharp.RGBA) :=
  omap (λ c, match c with Sharp.Rotate angle bg => Some (angle, bg) | _ => None end) calls.

Definition blurs (calls : list Sharp.Call) : list JS.number :=
  omap (λ c, match c with Sharp.Blur sigma => Some sigma | _ => None end) calls.

Definition mirrors (calls : list Sharp.Call) : list Sharp.Call :=
  omap (λ c, match c with
             | Sharp.Flop => Some Sharp.Flop
             | Sharp.Flip => Some Sharp.Flip
             | _ => None
             end) calls.

(** The place of each call in the pipeline. *)
Definition rank (c : Sharp.Call) : nat :=
  match c with
  | Sharp.EnsureAlpha _ => 0
  | Sharp.Extract _ => 1
  | Sharp.Resize _ _ _ => 2
  | Sharp.Flop => 3
  | Sharp.Flip => 4
  | Sharp.Rotate _ _ => 5
  | Sharp.Blur _ => 6
  | Sharp.Jpeg _ _ _ => 7
  | Sharp.Png _ _ _ => 8
  | Sharp.Gif _ _ _ => 9
  | Sharp.Webp _ _ => 10
  | Sharp.Tiff _ _ => 11
  | Sharp.Avif _ _ => 12
  end.

(** The background colour as the engine receives it. *)
Definition fixedBackground (output : TransformOptions.t) : Sharp.RGBA :=
  let background := TransformOptions.background output in
  {| Sharp.r := Color.at0 background;
     Sharp.g := Color.at1 background;
     Sharp.b := Color.at2 background;
     Sharp.alpha := Color.at3 background |}.

(** The regions of the [extract] calls and the arguments of the [resize]
    calls, each in call order. *)
Definition extracts (calls : list Sharp.Call) : list Sharp.Region :=
  omap (λ c, match c with Sharp.Extract region => Some region | _ => None end) calls.

Definition resizes (calls : list Sharp.Call)
  : list (option JS.number * option JS.number * Sharp.ResizeOptions) :=
  omap (λ c, match c with
             | Sharp.Resize width height options => Some (width, height, options)
             | _ => None
             end) calls.

(** The calls that are not encoder configurations. *)
Definition operations (calls : list Sharp.Call) : list Sharp.Call :=
  filter (λ c, encoder c = None) calls.

(** The calls but those of the given ranks. *)
Definition without (ranks : list nat) (calls : list Sharp.Call) : list Sharp.Call :=
  filter (λ c, rank c ∉ ranks) calls.

(** A call with its [force] flag, if it has one, cleared. *)
Definition unforce (c : Sharp.Call) : Sharp.Call :=
  match c with
  | Sharp.Jpeg quality progressive _ => Sharp.Jpeg quality progressive false
  | Sharp.Png progressive compressionLevel _ => Sharp.Png progressive compressionLevel false
  | Sharp.Gif loop delay _ => Sharp.Gif loop delay false
  | Sharp.Webp quality _ => Sharp.Webp quality false
  | Sharp.Tiff quality _ => Sharp.Tiff quality false
  | Sharp.Avif quality _ => Sharp.Avif quality false
  | c => c
  end.

(** Functional updates of the remaining options. *)
Module Update.

Definition with_width (v : option JS.number) (o : TransformOptions.t) : TransformOptions.t :=
  TransformOptions.Build_t v (TransformOptions.height o)
    (TransformOptions.contentType o) (TransformOptions.fit o)
    (TransformOptions.position o) (TransformOptions.background o)
    (TransformOptions.quality o) (TransformOptions.compressionLevel o)
    (TransformOptions.loop o) (TransformOptions.delay o) (TransformOptions.blurRadius o)
    (TransformOptions.rotate o) (TransformOptions.flip o) (TransformOptions.crop o).

Definition with_height (v : option JS.number) (o : TransformOptions.t) : TransformOptions.t :=
  TransformOptions.Build_t (TransformOptions.width o) v (TransformOptions.contentType o)
    (TransformOptions.fit o) (TransformOptions.position o)
    (TransformOptions.background o) (TransformOptions.quality o)
    (TransformOptions.compressionLevel o) (TransformOptions.loop o)
    (TransformOptions.delay o) (TransformOptions.blurRadius o)
    (TransformOptions.rotate o) (TransformOptions.flip o) (TransformOptions.crop o).

Definition with_fit (v : ImageFit) (o : TransformOptions.t) : TransformOptions.t :=
  TransformOptions.Build_t (TransformOptions.width o) (TransformOptions.height o)
    (TransformOptions.contentType o) v (TransformOptions.position o)
    (TransformOptions.background o) (TransformOptions.quality o)
    (TransformOptions.compressionLevel o) (TransformOptions.loop o)
    (TransformOptions.delay o) (TransformOptions.blurRadius o)
    (TransformOptions.rotate o) (TransformOptions.flip o) (TransformOptions.crop o).

Definition with_position (v : ImagePosition) (o : TransformOptions.t) : TransformOptions.t :=
  TransformOptions.Build_t (TransformOptions.width o) (TransformOptions.height o)
    (TransformOptions.contentType o) (TransformOptions.fit o) v
    (TransformOptions.background o) (TransformOptions.quality o)
    (TransformOptions.compressionLevel o) (TransformOptions.loop o)
    (TransformOptions.delay o) (TransformOptions.blurRadius o)
    (TransformOptions.rotate o) (TransformOptions.flip o) (TransformOptions.crop o).

Definition with_background (v : Color.t) (o : TransformOptions.t) : TransformOptions.t :=
  TransformOptions.Build_t (TransformOptions.width o) (TransformOptions.height o)
    (TransformOptions.contentType o) (TransformOptions.fit o)
    (TransformOptions.position o) v (TransformOptions.quality o)
    (TransformOptions.compressionLevel o) (TransformOptions.loop o)
    (TransformOptions.delay o) (TransformOptions.blurRadius o)
    (TransformOptions.rotate o) (TransformOptions.flip o) (TransformOptions.crop o).

Definition with_quality (v : JS.number) (o : TransformOptions.t) : TransformOptions.t :=
  TransformOptions.Build_t (TransformOptions.width o) (TransformOptions.height o)
    (TransformOptions.contentType o) (TransformOptions.fit o)
    (TransformOptions.position o) (TransformOptions.background o) v
    (TransformOptions.compressionLevel o) (TransformOptions.loop o)
    (TransformOptions.delay o) (TransformOptions.blurRadius o)
    (TransformOptions.rotate o) (TransformOptions.flip o) (TransformOptions.crop o).

Definition with_compressionLevel (v : JS.number) (o : TransformOptions.t) : TransformOptions.t :=
  TransformOptions.Build_t (TransformOptions.width o) (TransformOptions.height o)
    (TransformOptions.contentType o) (TransformOptions.fit o)
    (TransformOptions.position o) (TransformOptions.background o)
    (TransformOptions.quality o) v (TransformOptions.loop o) (TransformOptions.delay o)
    (TransformOptions.blurRadius o) (TransformOptions.rotate o)
    (TransformOptions.flip o) (TransformOptions.crop o).

Definition with_loop (v : JS.number) (o : TransformOptions.t) : TransformOptions.t :=
  TransformOptions.Build_t (TransformOptions.width o) (TransformOptions.height o)
    (TransformOptions.contentType o) (TransformOptions.fit o)
    (TransformOptions.position o) (TransformOptions.background o)
    (TransformOptions.quality o) (TransformOptions.compressionLevel o) v
    (TransformOptions.delay o) (TransformOptions.blurRadius o)
    (TransformOptions.rotate o) (TransformOptions.flip o) (TransformOptions.crop o).

Definition with_delay (v : JS.number) (o : TransformOptions.t) : TransformOptions.t :=
  TransformOptions.Build_t (TransformOptions.width o) (TransformOptions.height o)
    (TransformOptions.contentType o) (TransformOptions.fit o)
    (TransformOptions.position o) (TransformOptions.background o)
    (TransformOptions.quality o) (TransformOptions.compressionLevel o)
    (TransformOptions.loop o) v (TransformOptions.blurRadius o)
    (TransformOptions.rotate o) (TransformOptions.flip o) (TransformOptions.crop o).

Definition with_crop (v : option CropOptions.t) (o : TransformOptions.t) : TransformOptions.t :=
  TransformOptions.Build_t (TransformOptions.width o) (TransformOptions.height o)
    (TransformOptions.contentType o) (TransformOptions.fit o)
    (TransformOptions.position o) (TransformOptions.background o)
    (TransformOptions.quality o) (TransformOptions.compressionLevel o)
    (TransformOptions.loop o) (TransformOptions.delay o) (TransformOptions.blurRadius o)
    (TransformOptions.rotate o) (TransformOptions.flip o) v.

End Update.


(** An image with the [force] flags of its calls cleared. *)
Definition unforce_image (image : Sharp.t) : Sharp.t :=
  {| Sharp.input := Sharp.input image;
     Sharp.options := Sharp.options image;
     Sharp.calls := unforce <$> Sharp.calls image |}.

(** An engine whose method calls throw, or not, whatever the [force] flags. *)
Definition force_blind (engine : Sharp.Engine) : Prop :=
  ∀ image1 image2 c1 c2,
    unforce_image image1 = unforce_image image2 →
    unforce c1 = unforce c2 →
    Sharp.call_throws engine image1 c1 = Sharp.call_throws engine image2 c2.

(** No call made before the step of the given rank threw: the chain returned,
    or the call that threw is that of a step of this rank or later. *)
Definition no_throw_before (r : nat) (chain : Sharp.Chain) : Prop :=
  match chain with
  | Sharp.Returned _ => True
  | Sharp.Threw image _ => ∃ c, last (Sharp.calls image) = Some c ∧ r ≤ rank c
  end.

(** * Sample values *)

Module Sample.

(** The documented defaults of every option. *)
Definition defaults : TransformOptions.t :=
  {| TransformOptions.width := None;
     TransformOptions.height := None;
     TransformOptions.contentType := PNG;
     TransformOptions.fit := contain;
     TransformOptions.position := PositionString "center";
     TransformOptions.background :=
       {| Color.at0 := JS.of_Z 0; Color.at1 := JS.of_Z 0;
          Color.at2 := JS.of_Z 0; Color.at3 := JS.of_Z 0 |};
     TransformOptions.quality := JS.of_Z 80;
     TransformOptions.compressionLevel := JS.of_Z 9;
     TransformOptions.loop := JS.of_Z 0;
     TransformOptions.delay := JS.of_Z 100;
     TransformOptions.blurRadius := None;
     TransformOptions.rotate := None;
     TransformOptions.flip := None;
     TransformOptions.crop := None |}.

(** Crop, resize, flip, rotate, blur and re-encode all at once. *)
Definition everything : TransformOptions.t :=
  {| TransformOptions.width := Some (JS.of_Z 50);
     TransformOptions.height := None;
     TransformOptions.contentType := WEBP;
     TransformOptions.fit := cover;
     TransformOptions.position := PositionString "center";
     TransformOptions.background :=
       {| Color.at0 := JS.of_Z 255; Color.at1 := JS.of_Z 255;
          Color.at2 := JS.of_Z 255; Color.at3 := JS.of_Z 1 |};
     TransformOptions.quality := JS.of_Z 80;
     TransformOptions.compressionLevel := JS.of_Z 9;
     TransformOptions.loop := JS.of_Z 0;
     TransformOptions.delay := JS.of_Z 100;
     TransformOptions.blurRadius := Some (JS.of_Z 2);
     TransformOptions.rotate := Some (JS.of_Z 90);
     TransformOptions.flip := Some both;
     TransformOptions.crop :=
       Some {| CropOptions.x := JS.of_Z 10; CropOptions.y := JS.of_Z 10;
               CropOptions.width := JS.of_Z 20; CropOptions.height := JS.of_Z 20 |} |}.

Definition input (url : string) : Input.t :=
  {| Input.url := url;
     Input.data := [Byte.x89; Byte.x50; Byte.x4e; Byte.x47];
     Input.contentType := PNG |}.

Definition empty (url : string) : Input.t :=
  {| Input.url := url; Input.data := []; Input.contentType := PNG |}.

(** An engine that throws nowhere and hands the input bytes back whatever was
    configured. *)
Definition passthrough : Sharp.Engine :=
  {| Sharp.sharp_throws := λ _ _, None;
     Sharp.call_throws := λ _ _, None;
     Sharp.toBuffer := λ image, JS.Fulfilled (Sharp.input image) |}.

(** An engine that throws nowhere and rejects every image. *)
Definition failing : Sharp.Engine :=
  {| Sharp.sharp_throws := λ _ _, None;
     Sharp.call_throws := λ _ _, None;
     Sharp.toBuffer := λ _,
       JS.Rejected {| JS.message := "Input buffer contains unsupported image format" |} |}.

(** Checks on the arguments of a call. *)
Definition between (low high x : JS.number) : bool := JS.le low x && JS.le x high.

Definition positive_or_null (x : option JS.number) : bool :=
  match x with
  | Some x => JS.gt x (JS.of_Z 0)
  | None => true
  end.

Definition finite (x : JS.number) : bool :=
  match x with
  | S754_zero _ | S754_finite _ _ _ => true
  | S754_infinity _ | S754_nan => false
  end.

Definition three_tenths : JS.number := SFdiv JS.prec JS.emax (JS.of_Z 3) (JS.of_Z 10).

Definition expected (what : string) (ok : bool) : option JS.Error :=
  if ok then None else Some {| JS.message := "Expected " ++ what |}.

Definition check (c : Sharp.Call) : option JS.Error :=
  match c with
  | Sharp.Extract region =>
      expected "a region of the image"
        (JS.le (JS.of_Z 0) (Sharp.left region) && JS.le (JS.of_Z 0) (Sharp.top region)
         && JS.gt (Sharp.width region) (JS.of_Z 0)
         && JS.gt (Sharp.height region) (JS.of_Z 0))
  | Sharp.Resize width height _ =>
      expected "positive integer for width and height"
        (positive_or_null width && positive_or_null height)
  | Sharp.Rotate angle _ => expected "number for angle" (finite angle)
  | Sharp.Blur sigma =>
      expected "number between 0.3 and 1000 for sigma"
        (between three_tenths (JS.of_Z 1000) sigma)
  | Sharp.Jpeg quality _ _ | Sharp.Webp quality _
  | Sharp.Tiff quality _ | Sharp.Avif quality _ =>
      expected "integer between 1 and 100 for quality"
        (between (JS.of_Z 1) (JS.of_Z 100) quality)
  | Sharp.Png _ compressionLevel _ =>
      expected "integer between 0 and 9 for compressionLevel"
        (between (JS.of_Z 0) (JS.of_Z 9) compressionLevel)
  | _ => None
  end.

(** An engine that checks the arguments of its calls: the constructor wants
    bytes, [extract] a region with non-negative corner and positive size,
    [resize] positive dimensions, [rotate] a finite angle, [blur] a sigma
    between 0.3 and 1000, the encoders a quality between 1 and 100, [png] a
    level between 0 and 9. *)
Definition strict : Sharp.Engine :=
  {| Sharp.sharp_throws := λ data _,
       match data with
       | [] => Some {| JS.message := "Input Buffer is empty" |}
       | _ => None
       end;
     Sharp.call_throws := λ _ c, check c;
     Sharp.toBuffer := λ image, JS.Fulfilled (Sharp.input image) |}.

(** An engine whose [jpeg] call throws when it is forced. *)
Definition forced_jpeg_throws : Sharp.Engine :=
  {| Sharp.sharp_throws := λ _ _, None;
     Sharp.call_throws := λ _ c,
       match c with
       | Sharp.Jpeg _ _ true => Some {| JS.message := "jpeg output is not available" |}
       | _ => None
       end;
     Sharp.toBuffer := λ image, JS.Fulfilled (Sharp.input image) |}.

(** Options asking for an encoding that is not a supported output. *)
Definition bmp : TransformOptions.t := TransformOptions.with_contentType BMP defaults.

(** Options whose rotation, or blur radius, is not an ordinary angle or radius. *)
Definition rotate_nan : TransformOptions.t :=
  TransformOptions.with_rotate (Some JS.NaN) defaults.

Definition blur_negative : TransformOptions.t :=
  TransformOptions.with_blurRadius (Some (JS.of_Z (-3))) defaults.

(** Options with an argument the strict engine refuses. *)
Definition blur_tenth : TransformOptions.t :=
  TransformOptions.with_blurRadius
    (Some (SFdiv JS.prec JS.emax (JS.of_Z 1) (JS.of_Z 10))) defaults.

Definition quality_101 : TransformOptions.t := Update.with_quality (JS.of_Z 101) defaults.

Definition width_0 : TransformOptions.t := Update.with_width (Some (JS.of_Z 0)) everything.

Definition rotate_infinity : TransformOptions.t :=
  TransformOptions.with_rotate (Some (S754_infinity false)) everything.

End Sample.

(** * The calls of the pipeline, step by step *)

(** What each step of [pipeline] adds to the calls of the image, as a list.
    These are not part of the code: [pipeline_steps] below proves that
    [pipeline] makes the calls of these seven lists in turn, up to the first
    that throws. *)
Definition alpha_step : list Sharp.Call := [Sharp.EnsureAlpha (JS.of_Z 1)].

Definition crop_step (output : TransformOptions.t) : list Sharp.Call :=
  match TransformOptions.crop output with
  | Some crop =>
      [Sharp.Extract
         {| Sharp.left := CropOptions.x crop;
            Sharp.top := CropOptions.y crop;
            Sharp.width := CropOptions.width crop;
            Sharp.height := CropOptions.height crop |}]
  | None => []
  end.

Definition resize_step (output : TransformOptions.t) : list Sharp.Call :=
  match TransformOptions.width output, TransformOptions.height output with
  | None, None => []
  | width, height =>
      [Sharp.Resize width height
         {| Sharp.fit := TransformOptions.fit output;
            Sharp.position := TransformOptions.position output;
            Sharp.background := fixedBackground output |}]
  end.

Definition flip_step (output : TransformOptions.t) : list Sharp.Call :=
  match TransformOptions.flip output with
  | Some horizontal => [Sharp.Flop]
  | Some vertical => [Sharp.Flip]
  | Some both => [Sharp.Flop; Sharp.Flip]
  | None => []
  end.

Definition rotate_step (output : TransformOptions.t) : list Sharp.Call :=
  match TransformOptions.rotate output with
  | Some angle =>
      if JS.ToBoolean angle then [Sharp.Rotate angle (fixedBackground output)] else []
  | None => []
  end.

Definition blur_step (output : TransformOptions.t) : list Sharp.Call :=
  match TransformOptions.blurRadius output with
  | Some radius => if JS.gt radius (JS.of_Z 0) then [Sharp.Blur radius] else []
  | None => []
  end.

Definition encode_step (output : TransformOptions.t) : list Sharp.Call :=
  let contentType := TransformOptions.contentType output in
  let quality := TransformOptions.quality output in
  [ Sharp.Jpeg quality true (bool_decide (contentType = JPEG));
    Sharp.Png true (TransformOptions.compressionLevel output)
      (bool_decide (contentType = PNG));
    Sharp.Gif (TransformOptions.loop output) (TransformOptions.delay output)
      (bool_decide (contentType = GIF));
    Sharp.Webp quality (bool_decide (contentType = WEBP));
    Sharp.Tiff quality (bool_decide (contentType = TIFF));
    Sharp.Avif quality (bool_decide (contentType = AVIF)) ].

(** All the calls of a run in which no call throws. *)
Definition steps (output : TransformOptions.t) : list Sharp.Call :=
  alpha_step ++ crop_step output ++ resize_step output ++ flip_step output
  ++ rotate_step output ++ blur_step output ++ encode_step output.

(** Making a list of calls in turn, stopping at the first that throws. *)
Fixpoint call_all (engine : Sharp.Engine) (cs : list Sharp.Call) (image : Sharp.t)
  : Sharp.Chain :=
  match cs with
  | [] => Sharp.Returned image
  | c :: cs => Sharp.call engine c image |> call_all engine cs
  end.

(** * The pipeline on the samples *)

Example defaults_calls :
  transform_calls Sample.passthrough (Sample.input "in.png") Sample.defaults =
    [ Sharp.EnsureAlpha (JS.of_Z 1);
      Sharp.Jpeg (JS.of_Z 80) true false;
      Sharp.Png true (JS.of_Z 9) true;
      Sharp.Gif (JS.of_Z 0) (JS.of_Z 100) false;
      Sharp.Webp (JS.of_Z 80) false;
      Sharp.Tiff (JS.of_Z 80) false;
      Sharp.Avif (JS.of_Z 80) false ].
Proof. reflexivity. Qed.

Example everything_ranks :
  rank <$> transform_calls Sample.strict (Sample.input "in.png") Sample.everything =
    [0; 1; 2; 3; 4; 5; 6; 7; 8; 9; 10; 11; 12].
Proof. reflexivity. Qed.

Example everything_operations :
  take 7 (transform_calls Sample.strict (Sample.input "in.png") Sample.everything) =
    [ Sharp.EnsureAlpha (JS.of_Z 1);
      Sharp.Extract
        {| Sharp.left := JS.of_Z 10; Sharp.top := JS.of_Z 10;
           Sharp.width := JS.of_Z 20; Sharp.height := JS.of_Z 20 |};
      Sharp.Resize (Some (JS.of_Z 50)) None
        {| Sharp.fit := cover;
           Sharp.position := PositionString "center";
           Sharp.background := fixedBackground Sample.everything |};
      Sharp.Flop;
      Sharp.Flip;
      Sharp.Rotate (JS.of_Z 90) (fixedBackground Sample.everything);
      Sharp.Blur (JS.of_Z 2) ].
Proof. reflexivity. Qed.

Example failing_rejects :
  transform Sample.failing (Sample.input "in.png") Sample.defaults =
    JS.Rejected {| JS.message := "Input buffer contains unsupported image format" |}.
Proof. reflexivity. Qed.

(** A call that throws is the last call made, and its error rejects the
    promise: a blur radius of 0.1, a quality of 101, no bytes, a width of 0,
    an infinite angle. *)
Example strict_stops_at_blur :
  transform_calls Sample.strict (Sample.input "in.png") Sample.blur_tenth =
    [ Sharp.EnsureAlpha (JS.of_Z 1);
      Sharp.Blur (SFdiv JS.prec JS.emax (JS.of_Z 1) (JS.of_Z 10)) ]
  ∧ transform Sample.strict (Sample.input "in.png") Sample.blur_tenth =
    JS.Rejected {| JS.message := "Expected number between 0.3 and 1000 for sigma" |}.
Proof. split; reflexivity. Qed.

Example strict_stops_at_jpeg :
  transform_calls Sample.strict (Sample.input "in.png") Sample.quality_101 =
    [ Sharp.EnsureAlpha (JS.of_Z 1); Sharp.Jpeg (JS.of_Z 101) true false ]
  ∧ transform Sample.strict (Sample.input "in.png") Sample.quality_101 =
    JS.Rejected {| JS.message := "Expected integer between 1 and 100 for quality" |}.
Proof. split; reflexivity. Qed.

Example strict_stops_at_constructor :
  transform_calls Sample.strict (Sample.empty "in.png") Sample.everything = []
  ∧ transform Sample.strict (Sample.empty "in.png") Sample.everything =
    JS.Rejected {| JS.message := "Input Buffer is empty" |}.
Proof. split; reflexivity. Qed.

Example strict_stops_at_resize :
  rank <$> transform_calls Sample.strict (Sample.input "in.png") Sample.width_0 = [0; 1; 2].
Proof. reflexivity. Qed.

Example strict_stops_at_rotate :
  rank <$> transform_calls Sample.strict (Sample.input "in.png") Sample.rotate_infinity =
    [0; 1; 2; 3; 4; 5].
Proof. reflexivity. Qed.

(** The sample numbers are binary64 values. *)
Example sample_numbers_valid :
  forallb (valid_binary JS.prec JS.emax)
    [JS.of_Z 0; JS.of_Z 1; JS.of_Z 2; JS.of_Z (-3); JS.of_Z 90; JS.NaN; S754_zero true;
     S754_infinity false; Sample.three_tenths;
     SFdiv JS.prec JS.emax (JS.of_Z 1) (JS.of_Z 10)] = true.
Proof. reflexivity. Qed.

(** * Facts about the JS operators *)

Lemma of_Z_0 : JS.of_Z 0 = S754_zero false.
Proof. reflexivity. Qed.

(** Only the two zeros compare equal to [0]. *)
Lemma eq_zero_inv (x : JS.number) :
  JS.eq x (JS.of_Z 0) = true ↔ ∃ s, x = S754_zero s.
Proof.
  rewrite of_Z_0. split.
  - destruct x as [s|[]| |[] m e]; try discriminate. by exists s.
  - by intros [s ->].
Qed.

(** A number is truthy exactly when it is neither a zero nor [NaN]. *)
Lemma ToBoolean_true (x : JS.number) :
  JS.ToBoolean x = true ↔ JS.eq x (JS.of_Z 0) = false ∧ x ≠ JS.NaN.
Proof.
  rewrite of_Z_0. destruct x as [s|[]| |[] m e]; cbn; split; try done;
    intros [? ?]; done.
Qed.

(** In [rotate && rotate != 0] the second test never decides. *)
Lemma rotate_guard (angle : JS.number) :
  JS.ToBoolean angle && JS.ne angle (JS.of_Z 0) = JS.ToBoolean angle.
Proof. rewrite of_Z_0. by destruct angle as [s|[]| |[] m e]. Qed.

(** In [blurRadius && blurRadius > 0] the first test never decides. *)
Lemma blur_guard (radius : JS.number) :
  JS.ToBoolean radius && JS.gt radius (JS.of_Z 0) = JS.gt radius (JS.of_Z 0).
Proof. rewrite of_Z_0. by destruct radius as [s|[]| |[] m e]. Qed.

(** A number cannot be both above and below [0]; zeros and [NaN] are neither. *)
Lemma negative_not_gt (x : JS.number) :
  JS.lt x (JS.of_Z 0) = true → JS.gt x (JS.of_Z 0) = false.
Proof. rewrite of_Z_0. by destruct x as [s|[]| |[] m e]. Qed.

Lemma zero_not_gt (x : JS.number) :
  JS.eq x (JS.of_Z 0) = true → JS.gt x (JS.of_Z 0) = false.
Proof. intros [s ->]%eq_zero_inv. by rewrite of_Z_0. Qed.

#[global] Instance MimeType_value_inj : Inj (=) (=) MimeType_value.
Proof. intros m1 m2 H. by destruct m1, m2. Qed.

Lemma MimeType_strict_eq_decide (a b : MimeType) :
  MimeType_strict_eq a b = bool_decide (a = b).
Proof. unfold MimeType_strict_eq. apply bool_decide_ext. split; [apply (inj _)|congruence]. Qed.

(** * Chains of calls *)

Lemma run_nil (engine : Sharp.Engine) (chain : Sharp.Chain) :
  chain |> call_all engine [] = chain.
Proof. by destruct chain. Qed.

Lemma run_single (engine : Sharp.Engine) (chain : Sharp.Chain) (c : Sharp.Call) :
  chain |> Sharp.call engine c = chain |> call_all engine [c].
Proof.
  destruct chain as [image|]; [|done]. cbn.
  by destruct (Sharp.call engine c image).
Qed.

Lemma run_app (engine : Sharp.Engine) (chain : Sharp.Chain) (cs1 cs2 : list Sharp.Call) :
  chain |> call_all engine cs1 |> call_all engine cs2 =
  chain |> call_all engine (cs1 ++ cs2).
Proof.
  destruct chain as [image|]; [|done]. cbn.
  revert image. induction cs1 as [|c cs1 IH]; intros image; [done|].
  cbn. destruct (Sharp.call engine c image) as [image'|]; [|done]. apply IH.
Qed.

(** [pipeline] makes the calls of [steps], in turn, on the constructed image. *)
Lemma pipeline_steps (engine : Sharp.Engine)
  (input : Input.t) (output : TransformOptions.t) :
  pipeline engine input output =
    Sharp.sharp engine (Input.data input) {| Sharp.animated := true |}
    |> call_all engine (steps output).
Proof.
  unfold pipeline, steps, crop_step, resize_step, flip_step, rotate_step, blur_step,
    encode_step, alpha_step, fixedBackground.
  unfold Sharp.ensureAlpha, Sharp.extract, Sharp.resize, Sharp.flop, Sharp.flip,
    Sharp.rotate, Sharp.blur, Sharp.jpeg, Sharp.png, Sharp.gif, Sharp.webp,
    Sharp.tiff, Sharp.avif.
  rewrite !MimeType_strict_eq_decide.
  destruct (TransformOptions.crop output) as [crop|];
    destruct (TransformOptions.width output) as [width|];
    destruct (TransformOptions.height output) as [height|];
    destruct (TransformOptions.flip output) as [[]|];
    (destruct (TransformOptions.rotate output) as [angle|];
      [rewrite rotate_guard; destruct (JS.ToBoolean angle)|]);
    (destruct (TransformOptions.blurRadius output) as [radius|];
      [rewrite blur_guard; destruct (JS.gt radius (JS.of_Z 0))|]);
    repeat match goal with
      | |- context [FlipDirection_strict_eq ?a ?b] =>
          let v := eval vm_compute in (FlipDirection_strict_eq a b) in
          change (FlipDirection_strict_eq a b) with v
      end;
    cbn [orb JS.not_null];
    rewrite !run_single, !run_app; reflexivity.
Qed.

(** The calls a list of calls adds to an image: a prefix of the list, not
    empty unless the list is, and the whole list when no call throws. *)
Lemma call_all_calls (engine : Sharp.Engine) (cs : list Sharp.Call) (image : Sharp.t) :
  ∃ made,
    Sharp.image_of (call_all engine cs image) =
      {| Sharp.input := Sharp.input image;
         Sharp.options := Sharp.options image;
         Sharp.calls := Sharp.calls image ++ made |}
    ∧ made `prefix_of` cs
    ∧ (cs ≠ [] → made ≠ [])
    ∧ (∀ image', call_all engine cs image = Sharp.Returned image' → made = cs).
Proof.
  revert image. induction cs as [|c cs IH]; intros image.
  - exists []. destruct image. cbn. by rewrite app_nil_r.
  - cbn. unfold Sharp.call. destruct (Sharp.call_throws engine image c) as [reason|].
    + exists [c]. cbn.
      split; [done|split; [by apply prefix_cons, prefix_nil|split; done]].
    + cbn. edestruct IH as (made & Him & Hpre & _ & Hret). exists (c :: made).
      rewrite Him. cbn. rewrite <- (assoc_L (++)). cbn.
      split; [done|split; [by apply prefix_cons|split; [done|]]].
      intros image' H. f_equal. by eapply Hret.
Qed.

(** The image [pipeline] leaves: the input bytes, animated mode, and as calls
    a prefix of [steps] that is empty exactly when the constructor throws and
    is all of [steps] when no call throws. *)
Lemma pipeline_calls (engine : Sharp.Engine)
  (input : Input.t) (output : TransformOptions.t) :
  Sharp.image_of (pipeline engine input output) =
    {| Sharp.input := Input.data input;
       Sharp.options := {| Sharp.animated := true |};
       Sharp.calls := transform_calls engine input output |}
  ∧ transform_calls engine input output `prefix_of` steps output
  ∧ (transform_calls engine input output = []
     ↔ is_Some (Sharp.sharp_throws engine (Input.data input) {| Sharp.animated := true |}))
  ∧ (∀ image, pipeline engine input output = Sharp.Returned image →
       transform_calls engine input output = steps output).
Proof.
  unfold transform_calls. rewrite pipeline_steps. unfold Sharp.sharp.
  destruct (Sharp.sharp_throws _ _ _) as [reason|] eqn:E; cbn [Sharp.andThen].
  - split; [done|split; [apply prefix_nil|split; [|done]]].
    split; [by eexists|done].
  - destruct (call_all_calls engine (steps output)
                {| Sharp.input := Input.data input;
                   Sharp.options := {| Sharp.animated := true |};
                   Sharp.calls := [] |}) as (made & Him & Hpre & Hne & Hret).
    rewrite Him. cbn. split; [done|split; [done|split; [split|]]].
    + intros ->. by destruct Hne.
    + by intros [? [=]].
    + intros image H. by eapply Hret.
Qed.

Lemma transform_calls_prefix (engine : Sharp.Engine)
  (input : Input.t) (output : TransformOptions.t) :
  transform_calls engine input output `prefix_of` steps output.
Proof. apply pipeline_calls. Qed.

Lemma transform_calls_returned (engine : Sharp.Engine)
  (input : Input.t) (output : TransformOptions.t) (image : Sharp.t) :
  pipeline engine input output = Sharp.Returned image →
  Sharp.calls image = steps output ∧ transform_calls engine input output = steps output.
Proof.
  intros H. assert (H' := H). apply pipeline_calls in H'. split; [|done].
  rewrite <- H'. unfold transform_calls. by rewrite H.
Qed.

Lemma transform_calls_subset (engine : Sharp.Engine)
  (input : Input.t) (output : TransformOptions.t) (c : Sharp.Call) :
  c ∈ transform_calls engine input output → c ∈ steps output.
Proof.
  destruct (transform_calls_prefix engine input output) as [rest ->].
  intros H. apply elem_of_app. by left.
Qed.

(** The ranks of the steps strictly increase. *)
Lemma steps_sorted (output : TransformOptions.t) :
  StronglySorted lt (rank <$> steps output).
Proof.
  unfold steps, alpha_step, crop_step, resize_step, flip_step, rotate_step,
    blur_step, encode_step.
  repeat match goal with
    | |- context [match ?x with _ => _ end] => destruct x
    end;
  cbn; repeat (constructor; [|repeat constructor]); constructor.
Qed.

(** When no call before the step of rank [r] throws, the calls made hold
    every call of [steps] of rank at most [r]. *)
Lemma transform_calls_rest (engine : Sharp.Engine)
  (input : Input.t) (output : TransformOptions.t) (r : nat) :
  no_throw_before r (pipeline engine input output) →
  ∃ rest, steps output = transform_calls engine input output ++ rest
          ∧ ∀ d, d ∈ rest → r < rank d.
Proof.
  intros H. destruct (pipeline engine input output) as [image|image reason] eqn:E.
  - exists []. apply transform_calls_returned in E as [_ ->].
    split; [by rewrite app_nil_r|]. intros d Hd. by apply elem_of_nil in Hd.
  - destruct H as (c & Hlast & Hr).
    destruct (transform_calls_prefix engine input output) as [rest Hrest].
    exists rest. split; [done|]. intros d Hd.
    assert (Hc : c ∈ transform_calls engine input output).
    { unfold transform_calls. rewrite E. by apply last_Some_elem_of. }
    pose proof (steps_sorted output) as Hs. rewrite Hrest, fmap_app in Hs.
    eapply Nat.le_lt_trans; [exact Hr|].
    eapply (StronglySorted_app_1_elem_of _ _ _ _ _ Hs);
      by apply list_elem_of_fmap_2.
Qed.

Lemma omap_none {B : Type} (f : Sharp.Call → option B) (cs : list Sharp.Call) :
  (∀ d, d ∈ cs → f d = None) → omap f cs = [].
Proof.
  induction cs as [|c cs IH]; [done|]. intros H. cbn.
  rewrite (H c) by by left. apply IH. intros d Hd. apply H. by right.
Qed.

(** What is observed of the calls made is a prefix of what is observed of
    [steps], and all of it when no call throws before the last step observed. *)
Lemma observed_prefix {B : Type} (f : Sharp.Call → option B) (engine : Sharp.Engine)
  (input : Input.t) (output : TransformOptions.t) :
  omap f (transform_calls engine input output) `prefix_of` omap f (steps output).
Proof.
  destruct (transform_calls_prefix engine input output) as [rest ->].
  rewrite omap_app. by eexists.
Qed.

Lemma observed_all {B : Type} (f : Sharp.Call → option B) (r : nat)
  (engine : Sharp.Engine) (input : Input.t) (output : TransformOptions.t) :
  (∀ c, is_Some (f c) → rank c ≤ r) →
  no_throw_before r (pipeline engine input output) →
  omap f (transform_calls engine input output) = omap f (steps output).
Proof.
  intros Hf (rest & -> & Hrest)%transform_calls_rest.
  rewrite omap_app, (omap_none f rest), app_nil_r; [done|].
  intros d Hd. destruct (f d) eqn:E; [|done].
  assert (rank d ≤ r) by (apply Hf; by eexists). specialize (Hrest d Hd). lia.
Qed.

Lemma member_made (engine : Sharp.Engine)
  (input : Input.t) (output : TransformOptions.t) (c : Sharp.Call) :
  c ∈ steps output →
  no_throw_before (rank c) (pipeline engine input output) →
  c ∈ transform_calls engine input output.
Proof.
  intros Hc (rest & Hsteps & Hrest)%transform_calls_rest.
  rewrite Hsteps in Hc. apply elem_of_app in Hc as [Hc|Hc]; [done|].
  specialize (Hrest c Hc). lia.
Qed.

(** A chain that returns has no call that threw. *)
Lemma returned_no_throw (r : nat) (engine : Sharp.Engine)
  (input : Input.t) (output : TransformOptions.t) (image : Sharp.t) :
  pipeline engine input output = Sharp.Returned image →
  no_throw_before r (pipeline engine input output).
Proof. by intros ->. Qed.

(** Runs on the same bytes with the same steps are the same run. *)
Lemma pipeline_same_steps (engine : Sharp.Engine) (input1 input2 : Input.t)
  (output1 output2 : TransformOptions.t) :
  Input.data input1 = Input.data input2 →
  steps output1 = steps output2 →
  pipeline engine input1 output1 = pipeline engine input2 output2.
Proof. intros Hd Hs. by rewrite !pipeline_steps, Hd, Hs. Qed.

Lemma same_pipeline_same_outcome (engine : Sharp.Engine) (input1 input2 : Input.t)
  (output1 output2 : TransformOptions.t) :
  pipeline engine input1 output1 = pipeline engine input2 output2 →
  transform_calls engine input1 output1 = transform_calls engine input2 output2
  ∧ transform engine input1 output1 = transform engine input2 output2.
Proof. intros H. unfold transform_calls, transform. by rewrite H. Qed.

(** [transform] is rejected only with an error of the engine. *)
Lemma transform_rejected (engine : Sharp.Engine)
  (input : Input.t) (output : TransformOptions.t) (reason : JS.Error) :
  transform engine input output = JS.Rejected reason →
  (∃ image, pipeline engine input output = Sharp.Threw image reason)
  ∨ (∃ image, pipeline engine input output = Sharp.Returned image
              ∧ Sharp.toBuffer engine image = JS.Rejected reason).
Proof.
  unfold transform. destruct (pipeline engine input output) as [image|image reason'].
  - destruct (Sharp.toBuffer engine image) eqn:E; [done|].
    intros [= ->]. right. by exists image.
  - intros [= ->]. left. by exists image.
Qed.

Lemma supportedOutputs_spec (m : MimeType) :
  m ∈ supportedOutputs ↔ m ≠ SVG ∧ m ≠ BMP.
Proof.
  unfold supportedOutputs.
  rewrite elem_of_list_to_set, !elem_of_cons, elem_of_nil.
  destruct m; intuition congruence.
Qed.

(** Proof by cases on the options, over the steps. *)
Ltac by_steps :=
  unfold steps, alpha_step, crop_step, resize_step, flip_step, rotate_step,
    blur_step, encode_step;
  repeat match goal with
    | H : ?x = _ |- context [match ?x with _ => _ end] => rewrite H; cbv beta iota
    | |- context [match ?x with _ => _ end] => destruct x eqn:?
    end;
  try done; try congruence.

(** A call cannot be a member of a step that makes no such call. *)
Ltac no_member H :=
  repeat (apply elem_of_cons in H as [H|H]; [discriminate H|]);
  by apply elem_of_nil in H.

Lemma encoders_steps (output : TransformOptions.t) :
  encoders (steps output) =
    (λ m, (m, bool_decide (TransformOptions.contentType output = m)))
      <$> [JPEG; PNG; GIF; WEBP; TIFF; AVIF].
Proof. unfold encoders. by_steps. Qed.

(** An error thrown in the chain is an error the engine threw. *)
Lemma call_all_threw (engine : Sharp.Engine) (cs : list Sharp.Call)
  (image thrown : Sharp.t) (reason : JS.Error) :
  call_all engine cs image = Sharp.Threw thrown reason →
  ∃ image' c, Sharp.call_throws engine image' c = Some reason.
Proof.
  revert image. induction cs as [|c cs IH]; intros image; [done|].
  cbn. unfold Sharp.call.
  destruct (Sharp.call_throws engine image c) as [reason'|] eqn:E; cbn.
  - intros [= _ <-]. by exists image, c.
  - apply IH.
Qed.

Lemma pipeline_threw (engine : Sharp.Engine) (input : Input.t)
  (output : TransformOptions.t) (thrown : Sharp.t) (reason : JS.Error) :
  pipeline engine input output = Sharp.Threw thrown reason →
  Sharp.sharp_throws engine (Input.data input) {| Sharp.animated := true |} = Some reason
  ∨ ∃ image c, Sharp.call_throws engine image c = Some reason.
Proof.
  rewrite pipeline_steps. unfold Sharp.sharp.
  destruct (Sharp.sharp_throws _ _ _) as [reason'|]; cbn [Sharp.andThen].
  - intros [= _ <-]. by left.
  - intros H. right. by eapply call_all_threw.
Qed.

(** What is observed of the calls made is nothing when nothing is to be
    observed of the steps. *)
Lemma observed_nil {B : Type} (f : Sharp.Call → option B) (engine : Sharp.Engine)
  (input : Input.t) (output : TransformOptions.t) :
  omap f (steps output) = [] → omap f (transform_calls engine input output) = [].
Proof.
  intros H. apply prefix_nil_inv. rewrite <- H. apply observed_prefix.
Qed.


(** * Properties of the transformer *)

(** C1, as the code has it.  For every engine, input and resolved options
    whose [contentType] is not a member of [supportedOutputs], [transform] has
    no guard and raises no error of its own: every encoder call it makes has
    [force] false; it is rejected only with an error the engine threw (from
    the constructor, from a method call) or rejected [toBuffer] with; and
    when no call throws, all six encoders are configured, each with [force]
    false, [toBuffer] is awaited on that image and [transform] settles as it
    does. *)
Theorem unsupported_output_not_guarded (engine : Sharp.Engine)
  (input : Input.t) (output : TransformOptions.t) :
  (TransformOptions.contentType output ∉ supportedOutputs) →
  (∀ m force, (m, force) ∈ encoders (transform_calls engine input output) → force = false)
  ∧ (∀ reason, transform engine input output = JS.Rejected reason →
       Sharp.sharp_throws engine (Input.data input) {| Sharp.animated := true |}
         = Some reason
       ∨ (∃ image c, Sharp.call_throws engine image c = Some reason)
       ∨ (∃ image, Sharp.toBuffer engine image = JS.Rejected reason))
  ∧ (∀ image, pipeline engine input output = Sharp.Returned image →
       encoders (Sharp.calls image) =
         [(JPEG, false); (PNG, false); (GIF, false);
          (WEBP, false); (TIFF, false); (AVIF, false)]
       ∧ transform engine input output = Sharp.toBuffer engine image).
Proof.
  intros H.
  assert (Hs : encoders (steps output) =
                 [(JPEG, false); (PNG, false); (GIF, false);
                  (WEBP, false); (TIFF, false); (AVIF, false)]).
  { rewrite encoders_steps.
    destruct (TransformOptions.contentType output); try reflexivity;
      exfalso; apply H, supportedOutputs_spec; split; discriminate. }
  split; [|split].
  - intros m force Hin.
    destruct (observed_prefix encoder engine input output) as [rest Hrest].
    fold (encoders (transform_calls engine input output)) in Hrest.
    fold (encoders (steps output)) in Hrest. rewrite Hs in Hrest.
    assert (Hin' : (m, force) ∈ encoders (transform_calls engine input output) ++ rest)
      by (apply elem_of_app; by left).
    rewrite <- Hrest in Hin'.
    repeat (apply elem_of_cons in Hin' as [[= _ ->]|Hin']; [done|]).
    by apply elem_of_nil in Hin'.
  - intros reason [[thrown Ht]|[image [_ Hb]]]%transform_rejected.
    + apply pipeline_threw in Ht as [Ht|Ht]; [by left|by right; left].
    + right. right. by exists image.
  - intros image Hr. split.
    + apply transform_calls_returned in Hr as [-> _]. exact Hs.
    + unfold transform. rewrite Hr. by destruct (Sharp.toBuffer engine image).
Qed.

Lemma unsupported_output_not_guarded_witness :
  (TransformOptions.contentType Sample.bmp ∉ supportedOutputs)
  ∧ (∀ m force,
       (m, force) ∈ encoders (transform_calls Sample.strict (Sample.input "in.png")
                                Sample.bmp) →
       force = false)
  ∧ (∀ image,
       pipeline Sample.strict (Sample.input "in.png") Sample.bmp = Sharp.Returned image →
       transform Sample.strict (Sample.input "in.png") Sample.bmp =
         Sharp.toBuffer Sample.strict image).
Proof.
  assert (H : TransformOptions.contentType Sample.bmp ∉ supportedOutputs)
    by (vm_compute; discriminate).
  split; [exact H|].
  destruct (unsupported_output_not_guarded Sample.strict (Sample.input "in.png")
              Sample.bmp H) as (H1 & _ & H3).
  split; [exact H1|]. intros image Hr. by apply H3.
Defined.

(** C1 as stated fails: asked for [image/bmp], which is not a supported
    output, with an engine that
    accepts every call made, [transform] configures the six
    encoders, awaits the engine and is fulfilled with its bytes; nothing is
    rejected. *)
Lemma unsupported_output_fulfilled :
  (TransformOptions.contentType Sample.bmp ∉ supportedOutputs)
  ∧ (encoders (transform_calls Sample.strict (Sample.input "in.png") Sample.bmp)).*1 =
      [JPEG; PNG; GIF; WEBP; TIFF; AVIF]
  ∧ transform Sample.strict (Sample.input "in.png") Sample.bmp =
      JS.Fulfilled [Byte.x89; Byte.x50; Byte.x4e; Byte.x47]
  ∧ ¬ ∃ reason, transform Sample.strict (Sample.input "in.png") Sample.bmp =
      JS.Rejected reason.
Proof.
  split; [|split; [reflexivity|split; [reflexivity|]]].
  - vm_compute. discriminate.
  - intros [reason H]. discriminate H.
Qed.







(** The calls observed by [rotations], [blurs], [mirrors], [extracts] and
    [resizes] are those of the steps of rank 5, 6, 3 and 4, 1 and 2. *)
Lemma rotations_rank (c : Sharp.Call) :
  is_Some (match c with Sharp.Rotate angle bg => Some (angle, bg) | _ => None end) →
  rank c ≤ 5.
Proof. destruct c; cbn; intros [? [=]]; lia. Qed.

Lemma blurs_rank (c : Sharp.Call) :
  is_Some (match c with Sharp.Blur sigma => Some sigma | _ => None end) → rank c ≤ 6.
Proof. destruct c; cbn; intros [? [=]]; lia. Qed.

Lemma mirrors_rank (c : Sharp.Call) :
  is_Some (match c with
           | Sharp.Flop => Some Sharp.Flop
           | Sharp.Flip => Some Sharp.Flip
           | _ => None
           end) → rank c ≤ 4.
Proof. destruct c; cbn; intros [? [=]]; lia. Qed.

(** C5, as the code has it.  When [rotate] is null or equal to 0 (either
    zero), no [rotate] call is made.  When it is present, not equal to 0 and
    not [NaN], a [rotate] call is made at most once and only with that angle
    and the resolved background colour, and exactly once when no earlier
    call throws. *)
Theorem rotate_when_truthy (engine : Sharp.Engine)
  (input : Input.t) (output : TransformOptions.t) :
  (TransformOptions.rotate output = None →
     rotations (transform_calls engine input output) = [])
  ∧ (∀ angle, TransformOptions.rotate output = Some angle →
       JS.eq angle (JS.of_Z 0) = true →
       rotations (transform_calls engine input output) = [])
  ∧ (∀ angle, TransformOptions.rotate output = Some angle →
       JS.eq angle (JS.of_Z 0) = false → angle ≠ JS.NaN →
       rotations (transform_calls engine input output)
         `prefix_of` [(angle, fixedBackground output)]
       ∧ (no_throw_before 5 (pipeline engine input output) →
          rotations (transform_calls engine input output) =
            [(angle, fixedBackground output)])).
Proof.
  unfold rotations. split; [|split].
  - intros H. apply observed_nil. by_steps.
  - intros angle H [s ->]%eq_zero_inv. apply observed_nil. by_steps.
  - intros angle H Hne Hnan.
    assert (Htrue : JS.ToBoolean angle = true) by by apply ToBoolean_true.
    assert (Hs : rotations (steps output) = [(angle, fixedBackground output)])
      by (unfold rotations; by_steps).
    unfold rotations in Hs. split.
    + rewrite <- Hs. apply observed_prefix.
    + intros Hn. rewrite <- Hs. eapply observed_all; [apply rotations_rank|exact Hn].
Qed.

Lemma rotate_when_truthy_witness :
  (TransformOptions.rotate Sample.defaults = None
   ∧ rotations (transform_calls Sample.strict (Sample.input "in.png") Sample.defaults) = [])
  ∧ (JS.eq (S754_zero true) (JS.of_Z 0) = true
     ∧ rotations (transform_calls Sample.strict (Sample.input "in.png")
                    (TransformOptions.with_rotate (Some (S754_zero true)) Sample.defaults)) = [])
  ∧ (TransformOptions.rotate Sample.everything = Some (JS.of_Z 90)
     ∧ JS.eq (JS.of_Z 90) (JS.of_Z 0) = false
     ∧ JS.of_Z 90 ≠ JS.NaN
     ∧ no_throw_before 5 (pipeline Sample.strict (Sample.input "in.png") Sample.everything)
     ∧ rotations (transform_calls Sample.strict (Sample.input "in.png") Sample.everything) =
         [(JS.of_Z 90, fixedBackground Sample.everything)]).
Proof.
  split; [|split].
  - split; [reflexivity|].
    apply (rotate_when_truthy Sample.strict (Sample.input "in.png") Sample.defaults).
    reflexivity.
  - split; [reflexivity|].
    apply (rotate_when_truthy Sample.strict (Sample.input "in.png")
             (TransformOptions.with_rotate (Some (S754_zero true)) Sample.defaults))
      with (angle := S754_zero true); reflexivity.
  - assert (Hn : no_throw_before 5
                   (pipeline Sample.strict (Sample.input "in.png") Sample.everything))
      by (vm_compute; exact I).
    split; [reflexivity|split; [reflexivity|split; [discriminate|split; [exact Hn|]]]].
    apply (rotate_when_truthy Sample.strict (Sample.input "in.png") Sample.everything)
      with (angle := JS.of_Z 90); [reflexivity|reflexivity|discriminate|exact Hn].
Defined.

(** C5 as stated fails at [NaN]: it is present and [NaN != 0] holds, yet
    [NaN] is falsy, so the guard [rotate && rotate != 0] skips the call. *)
Lemma rotate_nan_skipped :
  TransformOptions.rotate Sample.rotate_nan = Some JS.NaN
  ∧ JS.ne JS.NaN (JS.of_Z 0) = true
  ∧ rotations (transform_calls Sample.strict (Sample.input "in.png") Sample.rotate_nan) = []
  ∧ rotations (transform_calls Sample.strict (Sample.input "in.png") Sample.rotate_nan) ≠
      [(JS.NaN, fixedBackground Sample.rotate_nan)]
  ∧ transform Sample.strict (Sample.input "in.png") Sample.rotate_nan =
      JS.Fulfilled [Byte.x89; Byte.x50; Byte.x4e; Byte.x47].
Proof. split; [|split; [|split; [|split]]]; [reflexivity..|discriminate|reflexivity]. Qed.

(** C6, as the code has it.  When [blurRadius] is null or equal to 0, no
    [blur] call is made.  When it is present and greater than 0, a [blur]
    call is made at most once and only with that radius, and exactly once
    when no earlier call throws. *)
Theorem blur_when_positive (engine : Sharp.Engine)
  (input : Input.t) (output : TransformOptions.t) :
  (TransformOptions.blurRadius output = None →
     blurs (transform_calls engine input output) = [])
  ∧ (∀ radius, TransformOptions.blurRadius output = Some radius →
       JS.eq radius (JS.of_Z 0) = true →
       blurs (transform_calls engine input output) = [])
  ∧ (∀ radius, TransformOptions.blurRadius output = Some radius →
       JS.gt radius (JS.of_Z 0) = true →
       blurs (transform_calls engine input output) `prefix_of` [radius]
       ∧ (no_throw_before 6 (pipeline engine input output) →
          blurs (transform_calls engine input output) = [radius])).
Proof.
  unfold blurs. split; [|split].
  - intros H. apply observed_nil. by_steps.
  - intros radius H Hzero%zero_not_gt. apply observed_nil. by_steps.
  - intros radius H Hgt.
    assert (Hs : blurs (steps output) = [radius]) by (unfold blurs; by_steps).
    unfold blurs in Hs. split.
    + rewrite <- Hs. apply observed_prefix.
    + intros Hn. rewrite <- Hs. eapply observed_all; [apply blurs_rank|exact Hn].
Qed.

Lemma blur_when_positive_witness :
  (TransformOptions.blurRadius Sample.defaults = None
   ∧ blurs (transform_calls Sample.strict (Sample.input "in.png") Sample.defaults) = [])
  ∧ (JS.eq (JS.of_Z 0) (JS.of_Z 0) = true
     ∧ blurs (transform_calls Sample.strict (Sample.input "in.png")
                (TransformOptions.with_blurRadius (Some (JS.of_Z 0)) Sample.defaults)) = [])
  ∧ (TransformOptions.blurRadius Sample.everything = Some (JS.of_Z 2)
     ∧ JS.gt (JS.of_Z 2) (JS.of_Z 0) = true
     ∧ no_throw_before 6 (pipeline Sample.strict (Sample.input "in.png") Sample.everything)
     ∧ blurs (transform_calls Sample.strict (Sample.input "in.png") Sample.everything) =
         [JS.of_Z 2]).
Proof.
  split; [|split].
  - split; [reflexivity|].
    apply (blur_when_positive Sample.strict (Sample.input "in.png") Sample.defaults).
    reflexivity.
  - split; [reflexivity|].
    apply (blur_when_positive Sample.strict (Sample.input "in.png")
             (TransformOptions.with_blurRadius (Some (JS.of_Z 0)) Sample.defaults))
      with (radius := JS.of_Z 0); reflexivity.
  - assert (Hn : no_throw_before 6
                   (pipeline Sample.strict (Sample.input "in.png") Sample.everything))
      by (vm_compute; exact I).
    split; [reflexivity|split; [reflexivity|split; [exact Hn|]]].
    apply (blur_when_positive Sample.strict (Sample.input "in.png") Sample.everything)
      with (radius := JS.of_Z 2); [reflexivity|reflexivity|exact Hn].
Defined.

(** C6 as stated fails: with a blur radius of 2 and no bytes the constructor
    throws, and the [blur] call is never made. *)
Lemma blur_not_reached :
  TransformOptions.blurRadius Sample.everything = Some (JS.of_Z 2)
  ∧ JS.gt (JS.of_Z 2) (JS.of_Z 0) = true
  ∧ blurs (transform_calls Sample.strict (Sample.empty "in.png") Sample.everything) = []
  ∧ transform Sample.strict (Sample.empty "in.png") Sample.everything =
      JS.Rejected {| JS.message := "Input Buffer is empty" |}.
Proof. split; [|split; [|split]]; reflexivity. Qed.

(** C7, as the code has it.  With [flip] null no mirroring call is made.
    With ['horizontal'] the only mirroring call made is [flop], with
    ['vertical'] it is [flip], with ['both'] they are [flop] and then [flip]:
    the mirroring calls made are a prefix of those, and all of them when no
    earlier call (for ['both'], neither [flop]) throws. *)
Theorem flip_mirrors (engine : Sharp.Engine)
  (input : Input.t) (output : TransformOptions.t) :
  (TransformOptions.flip output = None →
     mirrors (transform_calls engine input output) = [])
  ∧ (TransformOptions.flip output = Some horizontal →
       mirrors (transform_calls engine input output) `prefix_of` [Sharp.Flop]
       ∧ (no_throw_before 3 (pipeline engine input output) →
          mirrors (transform_calls engine input output) = [Sharp.Flop]))
  ∧ (TransformOptions.flip output = Some vertical →
       mirrors (transform_calls engine input output) `prefix_of` [Sharp.Flip]
       ∧ (no_throw_before 4 (pipeline engine input output) →
          mirrors (transform_calls engine input output) = [Sharp.Flip]))
  ∧ (TransformOptions.flip output = Some both →
       mirrors (transform_calls engine input output) `prefix_of` [Sharp.Flop; Sharp.Flip]
       ∧ (no_throw_before 4 (pipeline engine input output) →
          mirrors (transform_calls engine input output) = [Sharp.Flop; Sharp.Flip])).
Proof.
  split; [|split; [|split]].
  - intros H. apply observed_nil. by_steps.
  - intros H.
    assert (Hs : mirrors (steps output) = [Sharp.Flop]) by (unfold mirrors; by_steps).
    split; [rewrite <- Hs; apply observed_prefix|]. intros Hn.
    destruct (transform_calls_rest engine input output 3 Hn) as (rest & Hsteps & Hrest).
    rewrite Hsteps in Hs. unfold mirrors in *. rewrite omap_app in Hs.
    rewrite (omap_none _ rest) in Hs; [by rewrite app_nil_r in Hs|].
    intros d Hd. specialize (Hrest d Hd).
    assert (Hin : d ∈ steps output) by (rewrite Hsteps; apply elem_of_app; by right).
    destruct d; try done; [cbn in Hrest; lia|].
    exfalso. revert Hin. unfold steps. rewrite !elem_of_app.
    unfold alpha_step, crop_step, resize_step, flip_step, rotate_step, blur_step,
      encode_step. rewrite H.
    intros [Hin|[Hin|[Hin|[Hin|[Hin|[Hin|Hin]]]]]];
      repeat match type of Hin with
        | context [match ?x with _ => _ end] => destruct x
        end; no_member Hin.
  - intros H.
    assert (Hs : mirrors (steps output) = [Sharp.Flip]) by (unfold mirrors; by_steps).
    unfold mirrors in *. split; [rewrite <- Hs; apply observed_prefix|]. intros Hn.
    rewrite <- Hs. eapply observed_all; [apply mirrors_rank|exact Hn].
  - intros H.
    assert (Hs : mirrors (steps output) = [Sharp.Flop; Sharp.Flip])
      by (unfold mirrors; by_steps).
    unfold mirrors in *. split; [rewrite <- Hs; apply observed_prefix|]. intros Hn.
    rewrite <- Hs. eapply observed_all; [apply mirrors_rank|exact Hn].
Qed.

Lemma flip_mirrors_witness :
  (TransformOptions.flip Sample.defaults = None
   ∧ mirrors (transform_calls Sample.strict (Sample.input "in.png") Sample.defaults) = [])
  ∧ (TransformOptions.flip Sample.everything = Some both
     ∧ no_throw_before 4 (pipeline Sample.strict (Sample.input "in.png") Sample.everything)
     ∧ mirrors (transform_calls Sample.strict (Sample.input "in.png") Sample.everything) =
         [Sharp.Flop; Sharp.Flip]).
Proof.
  split.
  - split; [reflexivity|].
    apply (flip_mirrors Sample.strict (Sample.input "in.png") Sample.defaults).
    reflexivity.
  - assert (Hn : no_throw_before 4
                   (pipeline Sample.strict (Sample.input "in.png") Sample.everything))
      by (vm_compute; exact I).
    split; [reflexivity|split; [exact Hn|]].
    destruct (flip_mirrors Sample.strict (Sample.input "in.png") Sample.everything)
      as (_ & _ & _ & H4).
    destruct (H4 eq_refl) as [_ H]. exact (H Hn).
Defined.

(** C7 as stated fails: with [flip] ['both'] and a width of 0 the [resize]
    call throws, and neither [flop] nor [flip] is made. *)
Lemma flip_not_reached :
  TransformOptions.flip Sample.width_0 = Some both
  ∧ mirrors (transform_calls Sample.strict (Sample.input "in.png") Sample.width_0) = []
  ∧ transform Sample.strict (Sample.input "in.png") Sample.width_0 =
      JS.Rejected {| JS.message := "Expected positive integer for width and height" |}.
Proof. split; [|split]; reflexivity. Qed.

(** C8.  Two calls of [transform] that agree on [input.data] and on the
    options make the same calls on the engine and settle alike, whatever
    their [url] (and their declared input [contentType]). *)
Theorem url_noninterference (engine : Sharp.Engine)
  (input1 input2 : Input.t) (output : TransformOptions.t) :
  Input.data input1 = Input.data input2 →
  pipeline engine input1 output = pipeline engine input2 output
  ∧ transform engine input1 output = transform engine input2 output.
Proof.
  intros H.
  assert (Hp : pipeline engine input1 output = pipeline engine input2 output)
    by by apply pipeline_same_steps.
  split; [exact Hp|]. by apply same_pipeline_same_outcome.
Qed.

Lemma url_noninterference_witness :
  Input.url (Sample.input "https://a.example/cat.png") ≠
    Input.url (Sample.input "https://b.example/dog.png")
  ∧ Input.data (Sample.input "https://a.example/cat.png") =
    Input.data (Sample.input "https://b.example/dog.png")
  ∧ transform Sample.strict (Sample.input "https://a.example/cat.png") Sample.everything =
    transform Sample.strict (Sample.input "https://b.example/dog.png") Sample.everything.
Proof.
  split; [discriminate|split; [reflexivity|]].
  apply (url_noninterference Sample.strict
           (Sample.input "https://a.example/cat.png")
           (Sample.input "https://b.example/dog.png") Sample.everything).
  reflexivity.
Defined.

(** C9.  The fallback output of [sharpTransformer], [image/png], is one of
    its supported outputs. *)
Theorem fallbackOutput_supported :
  Transformer.fallbackOutput sharpTransformer = PNG
  ∧ Transformer.fallbackOutput sharpTransformer
      ∈ Transformer.supportedOutputs sharpTransformer.
Proof. split; [reflexivity|]. apply supportedOutputs_spec. split; discriminate. Qed.

(** The steps do not depend on a blur radius that adds no blur call. *)
Lemma steps_without_blur (output : TransformOptions.t) :
  blur_step output = [] →
  steps output = steps (TransformOptions.with_blurRadius None output).
Proof. intros H. unfold steps. rewrite H. reflexivity. Qed.

(** C10.  When [blurRadius] is present and negative, no [blur] call is made
    and nothing fails on that account: the calls, and so the outcome, are
    those of the same options without a blur radius. *)
Theorem negative_blur_skipped (engine : Sharp.Engine)
  (input : Input.t) (output : TransformOptions.t) (radius : JS.number) :
  TransformOptions.blurRadius output = Some radius →
  JS.lt radius (JS.of_Z 0) = true →
  blurs (transform_calls engine input output) = []
  ∧ transform_calls engine input output =
      transform_calls engine input (TransformOptions.with_blurRadius None output)
  ∧ transform engine input output =
      transform engine input (TransformOptions.with_blurRadius None output).
Proof.
  intros H Hneg%negative_not_gt.
  assert (Hstep : blur_step output = []) by (unfold blur_step; by rewrite H, Hneg).
  split; [unfold blurs; apply observed_nil; by_steps|].
  by apply same_pipeline_same_outcome, pipeline_same_steps, steps_without_blur.
Qed.

Lemma negative_blur_skipped_witness :
  TransformOptions.blurRadius Sample.blur_negative = Some (JS.of_Z (-3))
  ∧ JS.lt (JS.of_Z (-3)) (JS.of_Z 0) = true
  ∧ blurs (transform_calls Sample.strict (Sample.input "in.png") Sample.blur_negative) = []
  ∧ transform Sample.strict (Sample.input "in.png") Sample.blur_negative =
    transform Sample.strict (Sample.input "in.png")
      (TransformOptions.with_blurRadius None Sample.blur_negative).
Proof.
  split; [reflexivity|split; [reflexivity|]].
  pose proof (negative_blur_skipped Sample.strict (Sample.input "in.png")
                Sample.blur_negative (JS.of_Z (-3)) eq_refl eq_refl) as (H1 & _ & H3).
  split; [exact H1|exact H3].
Defined.

(** * Further properties of the transform *)

(** X1.  Whatever the options and the engine, the image is built from the
    bytes of [input.data], unchanged, in animated mode. *)
Theorem image_built_from_data (engine : Sharp.Engine)
  (input : Input.t) (output : TransformOptions.t) :
  Sharp.input (Sharp.image_of (pipeline engine input output)) = Input.data input
  ∧ Sharp.animated (Sharp.options (Sharp.image_of (pipeline engine input output))) = true.
Proof. destruct (pipeline_calls engine input output) as [-> _]. done. Qed.

Lemma extracts_rank (c : Sharp.Call) :
  is_Some (match c with Sharp.Extract region => Some region | _ => None end) → rank c ≤ 1.
Proof. destruct c; cbn; intros [? [=]]; lia. Qed.

Lemma resizes_rank (c : Sharp.Call) :
  is_Some (match c with
           | Sharp.Resize width height options => Some (width, height, options)
           | _ => None
           end) → rank c ≤ 2.
Proof. destruct c; cbn; intros [? [=]]; lia. Qed.

(** X2.  When [crop] is present, an [extract] call is made at most once and
    only with the region whose [left] and [top] are the crop's [x] and [y]
    and whose [width] and [height] are the crop's, and exactly once when no
    earlier call throws. *)
Theorem crop_extract_region (engine : Sharp.Engine) (input : Input.t)
  (output : TransformOptions.t) (crop : CropOptions.t) :
  TransformOptions.crop output = Some crop →
  extracts (transform_calls engine input output)
    `prefix_of` [ {| Sharp.left := CropOptions.x crop;
                     Sharp.top := CropOptions.y crop;
                     Sharp.width := CropOptions.width crop;
                     Sharp.height := CropOptions.height crop |} ]
  ∧ (no_throw_before 1 (pipeline engine input output) →
     extracts (transform_calls engine input output) =
       [ {| Sharp.left := CropOptions.x crop;
            Sharp.top := CropOptions.y crop;
            Sharp.width := CropOptions.width crop;
            Sharp.height := CropOptions.height crop |} ]).
Proof.
  intros H.
  assert (Hs : extracts (steps output) =
                 [ {| Sharp.left := CropOptions.x crop;
                      Sharp.top := CropOptions.y crop;
                      Sharp.width := CropOptions.width crop;
                      Sharp.height := CropOptions.height crop |} ])
    by (unfold extracts; by_steps).
  unfold extracts in *. split; [rewrite <- Hs; apply observed_prefix|].
  intros Hn. rewrite <- Hs. eapply observed_all; [apply extracts_rank|exact Hn].
Qed.

Lemma crop_extract_region_witness :
  TransformOptions.crop Sample.width_0 =
    Some {| CropOptions.x := JS.of_Z 10; CropOptions.y := JS.of_Z 10;
            CropOptions.width := JS.of_Z 20; CropOptions.height := JS.of_Z 20 |}
  ∧ no_throw_before 1 (pipeline Sample.strict (Sample.input "in.png") Sample.width_0)
  ∧ extracts (transform_calls Sample.strict (Sample.input "in.png") Sample.width_0) =
      [ {| Sharp.left := JS.of_Z 10; Sharp.top := JS.of_Z 10;
           Sharp.width := JS.of_Z 20; Sharp.height := JS.of_Z 20 |} ].
Proof.
  assert (Hn : no_throw_before 1
                 (pipeline Sample.strict (Sample.input "in.png") Sample.width_0)).
  { vm_compute. eexists. split; [reflexivity|]. repeat constructor. }
  split; [reflexivity|split; [exact Hn|]].
  apply (crop_extract_region Sample.strict (Sample.input "in.png") Sample.width_0
           {| CropOptions.x := JS.of_Z 10; CropOptions.y := JS.of_Z 10;
              CropOptions.width := JS.of_Z 20; CropOptions.height := JS.of_Z 20 |});
    [reflexivity|exact Hn].
Defined.

(** X3.  When [width] or [height] is present, a [resize] call is made at most
    once and only with [width] and [height] as they are (the absent one as
    null), [fit], [position], and as background the four components of the
    colour as [r], [g], [b] and [alpha]; it is made exactly once when no
    earlier call throws. *)
Theorem resize_arguments (engine : Sharp.Engine)
  (input : Input.t) (output : TransformOptions.t) :
  TransformOptions.width output ≠ None ∨ TransformOptions.height output ≠ None →
  resizes (transform_calls engine input output)
    `prefix_of`
      [ (TransformOptions.width output, TransformOptions.height output,
         {| Sharp.fit := TransformOptions.fit output;
            Sharp.position := TransformOptions.position output;
            Sharp.background :=
              {| Sharp.r := Color.at0 (TransformOptions.background output);
                 Sharp.g := Color.at1 (TransformOptions.background output);
                 Sharp.b := Color.at2 (TransformOptions.background output);
                 Sharp.alpha := Color.at3 (TransformOptions.background output) |} |}) ]
  ∧ (no_throw_before 2 (pipeline engine input output) →
     resizes (transform_calls engine input output) =
       [ (TransformOptions.width output, TransformOptions.height output,
          {| Sharp.fit := TransformOptions.fit output;
             Sharp.position := TransformOptions.position output;
             Sharp.background :=
               {| Sharp.r := Color.at0 (TransformOptions.background output);
                  Sharp.g := Color.at1 (TransformOptions.background output);
                  Sharp.b := Color.at2 (TransformOptions.background output);
                  Sharp.alpha := Color.at3 (TransformOptions.background output) |} |}) ]).
Proof.
  intros H.
  assert (Hs : resizes (steps output) =
    [ (TransformOptions.width output, TransformOptions.height output,
       {| Sharp.fit := TransformOptions.fit output;
          Sharp.position := TransformOptions.position output;
          Sharp.background :=
            {| Sharp.r := Color.at0 (TransformOptions.background output);
               Sharp.g := Color.at1 (TransformOptions.background output);
               Sharp.b := Color.at2 (TransformOptions.background output);
               Sharp.alpha := Color.at3 (TransformOptions.background output) |} |}) ]).
  { unfold resizes, steps, alpha_step, crop_step, resize_step, flip_step, rotate_step,
      blur_step, encode_step, fixedBackground.
    destruct (TransformOptions.width output), (TransformOptions.height output);
      [| | |by destruct H];
      repeat match goal with
        | |- context [match ?x with _ => _ end] => destruct x
        end; reflexivity. }
  unfold resizes in *. split; [rewrite <- Hs; apply observed_prefix|].
  intros Hn. rewrite <- Hs. eapply observed_all; [apply resizes_rank|exact Hn].
Qed.

Lemma resize_arguments_witness :
  (TransformOptions.width Sample.everything ≠ None
   ∨ TransformOptions.height Sample.everything ≠ None)
  ∧ no_throw_before 2 (pipeline Sample.strict (Sample.input "in.png") Sample.everything)
  ∧ resizes (transform_calls Sample.strict (Sample.input "in.png") Sample.everything) =
      [ (Some (JS.of_Z 50), None,
         {| Sharp.fit := cover;
            Sharp.position := PositionString "center";
            Sharp.background :=
              {| Sharp.r := JS.of_Z 255; Sharp.g := JS.of_Z 255;
                 Sharp.b := JS.of_Z 255; Sharp.alpha := JS.of_Z 1 |} |}) ].
Proof.
  assert (H : TransformOptions.width Sample.everything ≠ None
              ∨ TransformOptions.height Sample.everything ≠ None)
    by (left; discriminate).
  assert (Hn : no_throw_before 2
                 (pipeline Sample.strict (Sample.input "in.png") Sample.everything))
    by (vm_compute; exact I).
  split; [exact H|split; [exact Hn|]].
  destruct (resize_arguments Sample.strict (Sample.input "in.png") Sample.everything H)
    as [_ Hr]. exact (Hr Hn).
Defined.

(** X4.  A [blur] call with a given radius is made only if [blurRadius] is
    that number and it is greater than 0 (so null, both zeros, negative
    numbers and [NaN] all skip the blur, and the truthiness test of the guard
    never decides); and then it is made when no earlier call throws. *)
Theorem blur_call_condition (engine : Sharp.Engine) (input : Input.t)
  (output : TransformOptions.t) (sigma : JS.number) :
  (Sharp.Blur sigma ∈ transform_calls engine input output →
     TransformOptions.blurRadius output = Some sigma ∧ JS.gt sigma (JS.of_Z 0) = true)
  ∧ (TransformOptions.blurRadius output = Some sigma →
     JS.gt sigma (JS.of_Z 0) = true →
     no_throw_before 6 (pipeline engine input output) →
     Sharp.Blur sigma ∈ transform_calls engine input output).
Proof.
  split.
  - intros H%transform_calls_subset. revert H. unfold steps. rewrite !elem_of_app.
    unfold alpha_step, crop_step, resize_step, flip_step, rotate_step, blur_step,
      encode_step.
    intros [H|[H|[H|[H|[H|[H|H]]]]]];
      repeat match type of H with
        | context [match ?x with _ => _ end] => destruct x eqn:?
        end; try no_member H.
    apply list_elem_of_singleton in H as [= ->]. done.
  - intros H Hgt Hn. apply member_made; [|exact Hn].
    unfold steps. rewrite !elem_of_app. do 5 right. left.
    unfold blur_step. rewrite H, Hgt. by left.
Qed.

Lemma blur_call_condition_witness :
  Sharp.Blur (SFdiv JS.prec JS.emax (JS.of_Z 1) (JS.of_Z 10))
    ∈ transform_calls Sample.strict (Sample.input "in.png") Sample.blur_tenth
  ∧ TransformOptions.blurRadius Sample.blur_tenth =
      Some (SFdiv JS.prec JS.emax (JS.of_Z 1) (JS.of_Z 10))
  ∧ JS.gt (SFdiv JS.prec JS.emax (JS.of_Z 1) (JS.of_Z 10)) (JS.of_Z 0) = true
  ∧ no_throw_before 6 (pipeline Sample.strict (Sample.input "in.png") Sample.blur_tenth).
Proof.
  assert (Hn : no_throw_before 6
                 (pipeline Sample.strict (Sample.input "in.png") Sample.blur_tenth)).
  { vm_compute. eexists. split; [reflexivity|]. repeat constructor. }
  split; [|split; [reflexivity|split; [reflexivity|exact Hn]]].
  apply (blur_call_condition Sample.strict (Sample.input "in.png") Sample.blur_tenth
           (SFdiv JS.prec JS.emax (JS.of_Z 1) (JS.of_Z 10)));
    [reflexivity|reflexivity|exact Hn].
Defined.

(** X5.  A [rotate] call with a given angle and background is made only if
    [rotate] is that number, the number is truthy (not a zero, not [NaN]; an
    infinity is), and the background is the resolved colour (the test
    [rotate != 0] of the guard never decides); and then it is made when no
    earlier call throws. *)
Theorem rotate_call_condition (engine : Sharp.Engine) (input : Input.t)
  (output : TransformOptions.t) (angle : JS.number) (background : Sharp.RGBA) :
  (Sharp.Rotate angle background ∈ transform_calls engine input output →
     TransformOptions.rotate output = Some angle
     ∧ JS.ToBoolean angle = true
     ∧ background = fixedBackground output)
  ∧ (TransformOptions.rotate output = Some angle →
     JS.ToBoolean angle = true →
     no_throw_before 5 (pipeline engine input output) →
     Sharp.Rotate angle (fixedBackground output) ∈ transform_calls engine input output).
Proof.
  split.
  - intros H%transform_calls_subset. revert H. unfold steps. rewrite !elem_of_app.
    unfold alpha_step, crop_step, resize_step, flip_step, rotate_step, blur_step,
      encode_step.
    intros [H|[H|[H|[H|[H|[H|H]]]]]];
      repeat match type of H with
        | context [match ?x with _ => _ end] => destruct x eqn:?
        end; try no_member H.
    apply list_elem_of_singleton in H as [= -> ->]. done.
  - intros H Htrue Hn. apply member_made; [|exact Hn].
    unfold steps. rewrite !elem_of_app. do 4 right. left.
    unfold rotate_step. rewrite H, Htrue. by left.
Qed.

Lemma rotate_call_condition_witness :
  TransformOptions.rotate Sample.rotate_infinity = Some (S754_infinity false)
  ∧ JS.ToBoolean (S754_infinity false) = true
  ∧ no_throw_before 5
      (pipeline Sample.strict (Sample.input "in.png") Sample.rotate_infinity)
  ∧ Sharp.Rotate (S754_infinity false) (fixedBackground Sample.rotate_infinity)
      ∈ transform_calls Sample.strict (Sample.input "in.png") Sample.rotate_infinity.
Proof.
  assert (Hn : no_throw_before 5
                 (pipeline Sample.strict (Sample.input "in.png") Sample.rotate_infinity)).
  { vm_compute. eexists. split; [reflexivity|]. repeat constructor. }
  split; [reflexivity|split; [reflexivity|split; [exact Hn|]]].
  apply (rotate_call_condition Sample.strict (Sample.input "in.png") Sample.rotate_infinity
           (S754_infinity false) (fixedBackground Sample.rotate_infinity));
    [reflexivity|reflexivity|exact Hn].
Defined.

(** Proof by cases on the options of two runs whose options differ by updates. *)
Ltac frame :=
  unfold steps, without, operations, alpha_step, crop_step, resize_step, flip_step,
    rotate_step, blur_step, encode_step, fixedBackground;
  cbn [TransformOptions.width TransformOptions.height TransformOptions.contentType
       TransformOptions.fit TransformOptions.position TransformOptions.background
       TransformOptions.quality TransformOptions.compressionLevel TransformOptions.loop
       TransformOptions.delay TransformOptions.blurRadius TransformOptions.rotate
       TransformOptions.flip TransformOptions.crop
       TransformOptions.with_contentType TransformOptions.with_blurRadius
       TransformOptions.with_rotate TransformOptions.with_flip
       Update.with_width Update.with_height Update.with_fit Update.with_position
       Update.with_background Update.with_quality Update.with_compressionLevel
       Update.with_loop Update.with_delay Update.with_crop];
  repeat match goal with
    | H : ?x = _ |- context [match ?x with _ => _ end] => rewrite H; cbv beta iota
    | |- context [match ?x with _ => _ end] => destruct x eqn:?
    end;
  try reflexivity; try congruence.

(** X6.  Between runs in which no call throws, each optional step is
    controlled by its own option alone: changing [crop] changes no call but
    [extract], changing [width] and [height] none but [resize], changing
    [flip] none but [flop] and [flip], changing [rotate] none but [rotate],
    changing [blurRadius] none but [blur]. *)
Theorem steps_independent (engine : Sharp.Engine)
  (input : Input.t) (output : TransformOptions.t) (image : Sharp.t) :
  pipeline engine input output = Sharp.Returned image →
  (∀ crop image',
     pipeline engine input (Update.with_crop crop output) = Sharp.Returned image' →
     without [1] (Sharp.calls image') = without [1] (Sharp.calls image))
  ∧ (∀ width height image',
       pipeline engine input (Update.with_width width (Update.with_height height output))
         = Sharp.Returned image' →
       without [2] (Sharp.calls image') = without [2] (Sharp.calls image))
  ∧ (∀ flip image',
       pipeline engine input (TransformOptions.with_flip flip output)
         = Sharp.Returned image' →
       without [3; 4] (Sharp.calls image') = without [3; 4] (Sharp.calls image))
  ∧ (∀ angle image',
       pipeline engine input (TransformOptions.with_rotate angle output)
         = Sharp.Returned image' →
       without [5] (Sharp.calls image') = without [5] (Sharp.calls image))
  ∧ (∀ radius image',
       pipeline engine input (TransformOptions.with_blurRadius radius output)
         = Sharp.Returned image' →
       without [6] (Sharp.calls image') = without [6] (Sharp.calls image)).
Proof.
  intros [-> _]%transform_calls_returned.
  split; [|split; [|split; [|split]]]; intros *; intros [-> _]%transform_calls_returned;
    frame.
Qed.

Lemma steps_independent_witness :
  pipeline Sample.strict (Sample.input "in.png") Sample.defaults =
    Sharp.Returned (Sharp.image_of
                      (pipeline Sample.strict (Sample.input "in.png") Sample.defaults))
  ∧ without [6]
      (transform_calls Sample.strict (Sample.input "in.png")
         (TransformOptions.with_blurRadius (Some (JS.of_Z 2)) Sample.defaults)) =
    without [6] (transform_calls Sample.strict (Sample.input "in.png") Sample.defaults).
Proof.
  assert (Hr : pipeline Sample.strict (Sample.input "in.png") Sample.defaults =
               Sharp.Returned
                 (Sharp.image_of
                    (pipeline Sample.strict (Sample.input "in.png") Sample.defaults)))
    by (vm_compute; reflexivity).
  split; [exact Hr|].
  destruct (steps_independent Sample.strict (Sample.input "in.png") Sample.defaults _ Hr)
    as (_ & _ & _ & _ & H).
  apply (H (Some (JS.of_Z 2))
           (Sharp.image_of
              (pipeline Sample.strict (Sample.input "in.png")
                 (TransformOptions.with_blurRadius (Some (JS.of_Z 2)) Sample.defaults)))).
  vm_compute. reflexivity.
Defined.

(** An encoder call can only come from the encode step. *)
Lemma encoder_call_in_encode_step (engine : Sharp.Engine) (input : Input.t)
  (output : TransformOptions.t) (c : Sharp.Call) :
  is_Some (encoder c) → c ∈ transform_calls engine input output → c ∈ encode_step output.
Proof.
  intros [e He] H%transform_calls_subset. revert H. unfold steps. rewrite !elem_of_app.
  unfold alpha_step, crop_step, resize_step, flip_step, rotate_step, blur_step.
  intros [H|[H|[H|[H|[H|[H|H]]]]]]; [..|done];
    repeat match type of H with
      | context [match ?x with _ => _ end] => destruct x
      end;
    repeat (apply elem_of_cons in H as [->|H]; [discriminate He|]);
    by apply elem_of_nil in H.
Qed.

(** X7.  What the encoders receive: [jpeg], [webp], [tiff] and [avif] get
    [quality]; [png] gets [compressionLevel]; [gif] gets [loop] and [delay];
    [jpeg] and [png] are always progressive. *)
Theorem encoder_arguments (engine : Sharp.Engine)
  (input : Input.t) (output : TransformOptions.t) :
  (∀ quality progressive force,
     Sharp.Jpeg quality progressive force ∈ transform_calls engine input output →
     quality = TransformOptions.quality output ∧ progressive = true)
  ∧ (∀ progressive compressionLevel force,
       Sharp.Png progressive compressionLevel force
         ∈ transform_calls engine input output →
       progressive = true ∧ compressionLevel = TransformOptions.compressionLevel output)
  ∧ (∀ loop delay force,
       Sharp.Gif loop delay force ∈ transform_calls engine input output →
       loop = TransformOptions.loop output ∧ delay = TransformOptions.delay output)
  ∧ (∀ quality force,
       Sharp.Webp quality force ∈ transform_calls engine input output
       ∨ Sharp.Tiff quality force ∈ transform_calls engine input output
       ∨ Sharp.Avif quality force ∈ transform_calls engine input output →
       quality = TransformOptions.quality output).
Proof.
  split; [|split; [|split]]; intros *; [| | |intros [H|[H|H]]; revert H];
    intros H; (apply encoder_call_in_encode_step in H; [|by eexists]);
    unfold encode_step in H;
    repeat match type of H with
      | _ ∈ [] => by apply elem_of_nil in H
      | _ ∈ _ :: _ => apply elem_of_cons in H as [H|H]
      | _ = _ => by injection H as -> ->
      | _ = _ => by injection H as ->
      | _ = _ => discriminate H
      end.
Qed.

Lemma encoder_arguments_witness :
  Sharp.Png true (JS.of_Z 9) false
    ∈ transform_calls Sample.strict (Sample.input "in.png") Sample.everything
  ∧ true = true
  ∧ JS.of_Z 9 = TransformOptions.compressionLevel Sample.everything.
Proof.
  assert (H : Sharp.Png true (JS.of_Z 9) false
                ∈ transform_calls Sample.strict (Sample.input "in.png") Sample.everything)
    by (vm_compute; repeat constructor).
  split; [exact H|].
  destruct (encoder_arguments Sample.strict (Sample.input "in.png") Sample.everything)
    as (_ & Hpng & _).
  exact (Hpng true (JS.of_Z 9) false H).
Defined.

(** X8.  Without a [resize] call, [fit] and [position] are never read:
    when [width] and [height] are both null, changing them changes no call
    and so not the outcome. *)
Theorem fit_position_unused (engine : Sharp.Engine) (input : Input.t)
  (output : TransformOptions.t) (fit : ImageFit) (position : ImagePosition) :
  TransformOptions.width output = None →
  TransformOptions.height output = None →
  transform_calls engine input
    (Update.with_fit fit (Update.with_position position output)) =
    transform_calls engine input output
  ∧ transform engine input (Update.with_fit fit (Update.with_position position output)) =
    transform engine input output.
Proof.
  intros Hw Hh. apply same_pipeline_same_outcome, pipeline_same_steps; [done|]. frame.
Qed.

Lemma fit_position_unused_witness :
  TransformOptions.width Sample.defaults = None
  ∧ TransformOptions.height Sample.defaults = None
  ∧ transform Sample.strict (Sample.input "in.png")
      (Update.with_fit outside (Update.with_position (PositionNumber (JS.of_Z 3))
                                  Sample.defaults)) =
    transform Sample.strict (Sample.input "in.png") Sample.defaults.
Proof.
  split; [reflexivity|split; [reflexivity|]].
  apply (fit_position_unused Sample.strict (Sample.input "in.png") Sample.defaults
           outside (PositionNumber (JS.of_Z 3))); reflexivity.
Defined.

(** X9.  The background colour is read by [resize] and [rotate] only: when
    [width] and [height] are null and [rotate] is null or falsy, changing
    [background] changes no call and so not the outcome. *)
Theorem background_unused (engine : Sharp.Engine) (input : Input.t)
  (output : TransformOptions.t) (background : Color.t) :
  TransformOptions.width output = None →
  TransformOptions.height output = None →
  (∀ angle, TransformOptions.rotate output = Some angle → JS.ToBoolean angle = false) →
  transform_calls engine input (Update.with_background background output) =
    transform_calls engine input output
  ∧ transform engine input (Update.with_background background output) =
    transform engine input output.
Proof.
  intros Hw Hh Hr. apply same_pipeline_same_outcome, pipeline_same_steps; [done|].
  destruct (TransformOptions.rotate output) as [angle|] eqn:E;
    [specialize (Hr angle eq_refl)|clear Hr]; frame.
Qed.

Lemma background_unused_witness :
  TransformOptions.width Sample.rotate_nan = None
  ∧ TransformOptions.height Sample.rotate_nan = None
  ∧ TransformOptions.rotate Sample.rotate_nan = Some JS.NaN
  ∧ JS.ToBoolean JS.NaN = false
  ∧ transform Sample.strict (Sample.input "in.png")
      (Update.with_background (TransformOptions.background Sample.everything)
         Sample.rotate_nan) =
    transform Sample.strict (Sample.input "in.png") Sample.rotate_nan.
Proof.
  split; [reflexivity|split; [reflexivity|split; [reflexivity|split; [reflexivity|]]]].
  apply (background_unused Sample.strict (Sample.input "in.png") Sample.rotate_nan
           (TransformOptions.background Sample.everything)); [reflexivity..|].
  intros angle [= <-]. reflexivity.
Defined.

(** X10.  All output types outside [supportedOutputs] are treated alike: the
    calls, and so the outcome, are the same for any two of them. *)
Theorem unsupported_outputs_alike (engine : Sharp.Engine) (input : Input.t)
  (output : TransformOptions.t) (m1 m2 : MimeType) :
  (m1 ∉ supportedOutputs) → (m2 ∉ supportedOutputs) →
  transform_calls engine input (TransformOptions.with_contentType m1 output) =
    transform_calls engine input (TransformOptions.with_contentType m2 output)
  ∧ transform engine input (TransformOptions.with_contentType m1 output) =
    transform engine input (TransformOptions.with_contentType m2 output).
Proof.
  intros H1 H2. apply same_pipeline_same_outcome, pipeline_same_steps; [done|].
  unfold steps. do 6 f_equal.
  destruct m1; try (exfalso; apply H1, supportedOutputs_spec; split; discriminate);
    destruct m2; try (exfalso; apply H2, supportedOutputs_spec; split; discriminate);
    reflexivity.
Qed.

Lemma unsupported_outputs_alike_witness :
  (SVG ∉ supportedOutputs) ∧ (BMP ∉ supportedOutputs)
  ∧ transform Sample.strict (Sample.input "in.png")
      (TransformOptions.with_contentType SVG Sample.everything) =
    transform Sample.strict (Sample.input "in.png")
      (TransformOptions.with_contentType BMP Sample.everything).
Proof.
  assert (H1 : SVG ∉ supportedOutputs) by (vm_compute; discriminate).
  assert (H2 : BMP ∉ supportedOutputs) by (vm_compute; discriminate).
  split; [exact H1|split; [exact H2|]].
  apply (unsupported_outputs_alike Sample.strict (Sample.input "in.png")
           Sample.everything SVG BMP H1 H2).
Defined.

(** With an engine blind to the [force] flags, chains of calls that differ in
    those flags only stop at the same call. *)
Lemma call_all_force_blind (engine : Sharp.Engine) (cs1 cs2 : list Sharp.Call)
  (image1 image2 : Sharp.t) :
  force_blind engine →
  unforce <$> cs1 = unforce <$> cs2 →
  unforce_image image1 = unforce_image image2 →
  unforce_image (Sharp.image_of (call_all engine cs1 image1)) =
  unforce_image (Sharp.image_of (call_all engine cs2 image2)).
Proof.
  intros Hblind. revert cs2 image1 image2.
  induction cs1 as [|c1 cs1 IH]; intros [|c2 cs2] image1 image2 Hcs Him;
    try discriminate Hcs; [done|].
  injection Hcs as Hc Hcs. cbn. unfold Sharp.call.
  rewrite (Hblind image1 image2 c1 c2 Him Hc).
  assert (Hcalled :
    unforce_image
      {| Sharp.input := Sharp.input image1; Sharp.options := Sharp.options image1;
         Sharp.calls := Sharp.calls image1 ++ [c1] |} =
    unforce_image
      {| Sharp.input := Sharp.input image2; Sharp.options := Sharp.options image2;
         Sharp.calls := Sharp.calls image2 ++ [c2] |}).
  { unfold unforce_image in *. cbn in *. injection Him as -> -> Hcalls.
    rewrite !fmap_app, Hcalls. cbn. by rewrite Hc. }
  destruct (Sharp.call_throws engine image2 c2); cbn; [done|by apply IH].
Qed.

Lemma strict_force_blind : force_blind Sample.strict.
Proof.
  intros image1 image2 c1 c2 _ H. cbn.
  destruct c1, c2; cbn in H; try discriminate H;
    try (injection H; intros; subst); reflexivity.
Qed.

(** X11.  [contentType] decides the [force] flags and nothing else: with the
    flags cleared, the calls made for two values of [contentType] agree as
    far as both runs go, and are the same when the engine's calls throw, or
    not, whatever the flags. *)
Theorem contentType_only_sets_force (engine : Sharp.Engine) (input : Input.t)
  (output : TransformOptions.t) (m : MimeType) :
  (unforce <$> transform_calls engine input (TransformOptions.with_contentType m output)
     `prefix_of` unforce <$> transform_calls engine input output
   ∨ unforce <$> transform_calls engine input output
       `prefix_of`
       unforce <$> transform_calls engine input
                     (TransformOptions.with_contentType m output))
  ∧ (force_blind engine →
     unforce <$> transform_calls engine input (TransformOptions.with_contentType m output) =
     unforce <$> transform_calls engine input output).
Proof.
  assert (Hs : unforce <$> steps (TransformOptions.with_contentType m output) =
               unforce <$> steps output)
    by (unfold steps; rewrite !fmap_app; do 6 f_equal).
  split.
  - apply (prefix_weak_total _ _ (unforce <$> steps output)).
    + destruct (transform_calls_prefix engine input
                  (TransformOptions.with_contentType m output)) as [rest Hrest].
      exists (unforce <$> rest). by rewrite <- Hs, Hrest, fmap_app.
    + destruct (transform_calls_prefix engine input output) as [rest Hrest].
      exists (unforce <$> rest). by rewrite Hrest, fmap_app.
  - intros Hblind. unfold transform_calls. rewrite !pipeline_steps.
    unfold Sharp.sharp.
    destruct (Sharp.sharp_throws _ _ _); cbn [Sharp.andThen]; [done|].
    pose proof (call_all_force_blind engine
                  (steps (TransformOptions.with_contentType m output)) (steps output)
                  {| Sharp.input := Input.data input;
                     Sharp.options := {| Sharp.animated := true |};
                     Sharp.calls := [] |}
                  {| Sharp.input := Input.data input;
                     Sharp.options := {| Sharp.animated := true |};
                     Sharp.calls := [] |} Hblind Hs eq_refl) as H.
    unfold unforce_image in H. by injection H.
Qed.

(** The condition on the engine is needed: when a call throws for one value
    of the flag only, one run stops where the other goes on. *)
Example force_flag_may_stop_a_run :
  unforce <$> transform_calls Sample.forced_jpeg_throws (Sample.input "in.png")
                (TransformOptions.with_contentType JPEG Sample.defaults) =
    [ Sharp.EnsureAlpha (JS.of_Z 1); Sharp.Jpeg (JS.of_Z 80) true false ]
  ∧ length (transform_calls Sample.forced_jpeg_throws (Sample.input "in.png")
              Sample.defaults) = 7.
Proof. split; reflexivity. Qed.

Lemma contentType_only_sets_force_witness :
  force_blind Sample.strict
  ∧ unforce <$> transform_calls Sample.strict (Sample.input "in.png")
                  (TransformOptions.with_contentType JPEG Sample.quality_101) =
    unforce <$> transform_calls Sample.strict (Sample.input "in.png") Sample.quality_101.
Proof.
  split; [exact strict_force_blind|].
  apply (contentType_only_sets_force Sample.strict (Sample.input "in.png")
           Sample.quality_101 JPEG).
  exact strict_force_blind.
Defined.

(** X12.  With no crop, no width or height, no flip, a null or falsy [rotate]
    and a [blurRadius] that is null or not greater than 0, every call made is
    [ensureAlpha(1)] or an encoder configuration; when no call throws, there
    are exactly 7 calls: [ensureAlpha(1)] and the six encoders. *)
Theorem identity_pipeline (engine : Sharp.Engine)
  (input : Input.t) (output : TransformOptions.t) :
  TransformOptions.crop output = None →
  TransformOptions.width output = None →
  TransformOptions.height output = None →
  TransformOptions.flip output = None →
  (∀ angle, TransformOptions.rotate output = Some angle → JS.ToBoolean angle = false) →
  (∀ radius, TransformOptions.blurRadius output = Some radius →
     JS.gt radius (JS.of_Z 0) = false) →
  (∀ c, c ∈ transform_calls engine input output →
     c = Sharp.EnsureAlpha (JS.of_Z 1) ∨ is_Some (encoder c))
  ∧ (∀ image, pipeline engine input output = Sharp.Returned image →
       operations (Sharp.calls image) = [Sharp.EnsureAlpha (JS.of_Z 1)]
       ∧ length (Sharp.calls image) = 7).
Proof.
  intros Hc Hw Hh Hf Hr Hb.
  assert (Hrot : rotate_step output = []).
  { unfold rotate_step. destruct (TransformOptions.rotate output) as [angle|]; [|done].
    by rewrite (Hr angle eq_refl). }
  assert (Hblur : blur_step output = []).
  { unfold blur_step. destruct (TransformOptions.blurRadius output) as [radius|]; [|done].
    by rewrite (Hb radius eq_refl). }
  assert (Hs : steps output = alpha_step ++ encode_step output).
  { unfold steps. rewrite Hrot, Hblur.
    unfold crop_step, resize_step, flip_step. by rewrite Hc, Hw, Hh, Hf. }
  split.
  - intros c H%transform_calls_subset. rewrite Hs in H.
    unfold alpha_step, encode_step in H. cbn in H.
    apply elem_of_cons in H as [->|H]; [by left|]. right.
    repeat (apply elem_of_cons in H as [->|H]; [by eexists|]).
    by apply elem_of_nil in H.
  - intros image [-> _]%transform_calls_returned. by rewrite Hs.
Qed.

Lemma identity_pipeline_witness :
  TransformOptions.rotate Sample.rotate_nan = Some JS.NaN
  ∧ JS.ToBoolean JS.NaN = false
  ∧ operations (transform_calls Sample.strict (Sample.input "in.png") Sample.rotate_nan) =
      [Sharp.EnsureAlpha (JS.of_Z 1)]
  ∧ length (transform_calls Sample.strict (Sample.input "in.png") Sample.rotate_nan) = 7.
Proof.
  split; [reflexivity|split; [reflexivity|]].
  destruct (identity_pipeline Sample.strict (Sample.input "in.png") Sample.rotate_nan)
    as [_ H]; [reflexivity..| | |].
  - intros angle [= <-]. reflexivity.
  - intros radius H. discriminate H.
  - apply (H (Sharp.image_of
                (pipeline Sample.strict (Sample.input "in.png") Sample.rotate_nan))).
    vm_compute. reflexivity.
Defined.

(** X13.  [transform] makes at most 13 calls on the image, and at least 7
    when no call throws. *)
Theorem call_count_bounds (engine : Sharp.Engine)
  (input : Input.t) (output : TransformOptions.t) :
  length (transform_calls engine input output) ≤ 13
  ∧ (∀ image, pipeline engine input output = Sharp.Returned image →
       7 ≤ length (Sharp.calls image)).
Proof.
  assert (Hs : 7 ≤ length (steps output) ≤ 13).
  { unfold steps, alpha_step, crop_step, resize_step, flip_step, rotate_step,
      blur_step, encode_step.
    repeat match goal with
      | |- context [match ?x with _ => _ end] => destruct x
      end; cbn [length app]; lia. }
  split.
  - pose proof (prefix_length _ _ (transform_calls_prefix engine input output)). lia.
  - intros image [-> _]%transform_calls_returned. lia.
Qed.

Lemma call_count_bounds_witness :
  pipeline Sample.strict (Sample.input "in.png") Sample.defaults =
    Sharp.Returned (Sharp.image_of
                      (pipeline Sample.strict (Sample.input "in.png") Sample.defaults))
  ∧ 7 ≤ length (transform_calls Sample.strict (Sample.input "in.png") Sample.defaults).
Proof.
  assert (Hr : pipeline Sample.strict (Sample.input "in.png") Sample.defaults =
               Sharp.Returned
                 (Sharp.image_of
                    (pipeline Sample.strict (Sample.input "in.png") Sample.defaults)))
    by (vm_compute; reflexivity).
  split; [exact Hr|].
  destruct (call_count_bounds Sample.strict (Sample.input "in.png") Sample.defaults)
    as [_ H].
  exact (H _ Hr).
Defined.

(** X14.  Every supported input type is a supported output type, so with the
    source type as [contentType] (the documented default) no encoder but that
    of the source type is ever forced, and when no call throws exactly that
    one is. *)
Theorem source_type_is_encodable (engine : Sharp.Engine) (input : Input.t)
  (output : TransformOptions.t) (m : MimeType) :
  m ∈ Transformer.supportedInputs sharpTransformer →
  m ∈ Transformer.supportedOutputs sharpTransformer
  ∧ (∀ m', (m', true)
             ∈ encoders (transform_calls engine input
                           (TransformOptions.with_contentType m output)) →
           m' = m)
  ∧ (∀ image,
       pipeline engine input (TransformOptions.with_contentType m output)
         = Sharp.Returned image →
       filter (λ e, e.2 = true) (encoders (Sharp.calls image)) = [(m, true)]).
Proof.
  intros H. split; [exact H|]. split.
  - intros m' Hin.
    destruct (observed_prefix encoder engine input
                (TransformOptions.with_contentType m output)) as [rest Hrest].
    fold (encoders (transform_calls engine input
                      (TransformOptions.with_contentType m output))) in Hrest.
    fold (encoders (steps (TransformOptions.with_contentType m output))) in Hrest.
    rewrite encoders_steps in Hrest.
    assert (Hin' : (m', true)
                     ∈ encoders (transform_calls engine input
                                   (TransformOptions.with_contentType m output)) ++ rest)
      by (apply elem_of_app; by left).
    rewrite <- Hrest in Hin'. apply list_elem_of_fmap in Hin' as (m'' & [= -> Hd] & _).
    symmetry in Hd. by apply bool_decide_eq_true in Hd.
  - intros image [-> _]%transform_calls_returned.
    apply supportedOutputs_spec in H as [HSVG HBMP].
    rewrite encoders_steps. by destruct m.
Qed.

Lemma source_type_is_encodable_witness :
  GIF ∈ Transformer.supportedInputs sharpTransformer
  ∧ GIF ∈ Transformer.supportedOutputs sharpTransformer
  ∧ filter (λ e, e.2 = true)
      (encoders (transform_calls Sample.strict (Sample.input "in.gif")
                   (TransformOptions.with_contentType GIF Sample.defaults))) =
      [(GIF, true)].
Proof.
  assert (H : GIF ∈ Transformer.supportedInputs sharpTransformer)
    by (vm_compute; reflexivity).
  split; [exact H|].
  destruct (source_type_is_encodable Sample.strict (Sample.input "in.gif")
              Sample.defaults GIF H) as (H1 & _ & H3).
  split; [exact H1|].
  apply (H3 (Sharp.image_of
               (pipeline Sample.strict (Sample.input "in.gif")
                  (TransformOptions.with_contentType GIF Sample.defaults)))).
  vm_compute. reflexivity.
Defined.

(** X15.  The string values of the [MimeType] members are pairwise distinct:
    [===] on two members holds exactly when they are the same member. *)
Theorem strict_eq_is_member_equality (a b : MimeType) :
  MimeType_strict_eq a b = true ↔ a = b.
Proof. by rewrite MimeType_strict_eq_decide, bool_decide_eq_true. Qed.
